(** * scratch-build-bot: the action-dispatch and lifecycle script

    A shallow embedding of [src/scratch-build-bot.py], the command line
    front end of the staging bot.  The script, once its arguments are
    parsed, checks the configuration flags, obtains a [StagingBot], sets
    it up, runs exactly one action inside [try: ... finally:] and tears
    the bot down.

    The bot itself, the parser of OS versions and the two helpers on build
    results live in other modules ([staging.bot], [bci_build.package],
    [staging.build_result]); they are the fields of the class [Env] below
    and every theorem holds for all of them. *)

From Stdlib Require Import String List ZArith Bool Lia DecimalString.
Import ListNotations.
Open Scope string_scope.
Open Scope list_scope.

(** ** Python values and exceptions *)

(** What a coroutine of the bot may hand back to [run_until_complete]. *)
Inductive value : Type :=
| VNone
| VBool (b : bool)
| VInt (z : Z)
| VStr (s : string).

(** Python's truth value testing: [None], [False], [0] and [""] are false. *)
Definition truthy (v : value) : bool :=
  match v with
  | VNone => false
  | VBool b => b
  | VInt z => negb (z =? 0)%Z
  | VStr s => negb (s =? "")
  end.

(** [str(v)], what [print(v)] writes. *)
Definition py_str (v : value) : string :=
  match v with
  | VNone => "None"
  | VBool true => "True"
  | VBool false => "False"
  | VInt z => NilZero.string_of_int (Z.to_int z)
  | VStr s => s
  end.

(** [a or b] on values: the first operand when it is true, else the second. *)
Definition py_or (a b : value) : value := if truthy a then a else b.

Record exn : Type := Exn { exn_class : string; exn_msg : string }.

Definition RuntimeError (msg : string) : exn := Exn "RuntimeError" msg.
Definition ValueError (msg : string) : exn := Exn "ValueError" msg.
Definition AssertionError (msg : string) : exn := Exn "AssertionError" msg.
Definition IndexError : exn := Exn "IndexError" "list index out of range".

(** A keyword argument that a call may leave out. *)
Inductive kwarg (A : Type) : Type :=
| Omitted
| Passed (a : A).
Arguments Omitted {A}.
Arguments Passed {A} a.

(** ** The parsed command line

    The namespace returned by [parser.parse_args()].  Options declared with
    [nargs=1] are lists; [action] is [None] when no subcommand was given. *)
Record Args : Type := {
  os_version : list (option string);
  osc_user : list (option string);
  branch_name : list string;
  load : bool;
  from_stdin : bool;
  verbose : Z;
  action : option string;
  commit_message : list string;
  no_cleanup_branch : bool;
  no_cleanup_project : bool;
  timeout_sec : list (option Z)
}.

(** [not x] for an optional string: [None] and [""] are false. *)
Definition str_truthy (x : option string) : bool :=
  match x with
  | Some s => negb (s =? "")
  | None => false
  end.

(** [x == "literal"] where [x] may be [None]. *)
Definition py_eq (x : option string) (lit : string) : bool :=
  match x with
  | Some s => s =? lit
  | None => false
  end.

(** The f-string rendering of [action]. *)
Definition fmt_action (x : option string) : string :=
  match x with
  | Some s => s
  | None => "None"
  end.

(** ** The collaborators

    [World] is everything outside the script: the remote build service, the
    git checkout, standard input.  Every operation on it either returns or
    raises, and moves the world on. *)
Class Env : Type := {
  World : Type;
  Bot : Type;
  OsVersion : Type;
  BuildResults : Type;
  OsVersion_parse : string -> exn + OsVersion;
  stdin_read : World -> (exn + string) * World;
  from_env_file : World -> (exn + Bot) * World;
  from_github_comment :
    string -> option string -> World -> (exn + Bot) * World;
  StagingBot :
    OsVersion -> string -> option string -> World -> (exn + Bot) * World;
  setup : Bot -> World -> (exn + unit) * World;
  teardown : Bot -> World -> (exn + unit) * World;
  force_rebuild : Bot -> World -> (exn + value) * World;
  write_pkg_configs : Bot -> World -> (exn + value) * World;
  write_all_build_recipes_to_branch :
    Bot -> string -> World -> (exn + value) * World;
  fetch_build_results : Bot -> World -> (exn + BuildResults) * World;
  scratch_build : Bot -> string -> World -> (exn + value) * World;
  remote_cleanup : Bot -> bool -> bool -> World -> (exn + value) * World;
  wait_for_build_to_finish :
    Bot -> kwarg (option Z) -> World -> (exn + BuildResults) * World;
  is_build_failed : BuildResults -> bool;
  render_as_markdown : BuildResults -> string
}.

(** ** Observations *)

Inductive log_level : Type :=
| LevelName (name : string)
| LevelNo (n : Z).

Section Script.

Context {E : Env}.

(** A call that leaves the script, with the arguments it was given. *)
Inductive call : Type :=
| CStdinRead
| CFromEnvFile
| CFromGithubComment (comment : string) (osc_username : option string)
| CStagingBot (v : OsVersion) (branch : string) (osc_username : option string)
| CSetup
| CTeardown
| CForceRebuild
| CWritePkgConfigs
| CWriteAllBuildRecipes (commit_msg : string)
| CFetchBuildResults
| CScratchBuild (commit_msg : string)
| CRemoteCleanup (branches obs_project : bool)
| CWaitForBuild (timeout : kwarg (option Z)).

(** What such a call returned. *)
Inductive retval : Type :=
| RUnit
| RStr (s : string)
| RBot (b : Bot)
| RBuild (r : BuildResults)
| RVal (v : value).

Inductive event : Type :=
| EvCall (c : call) (r : exn + retval)
| EvAddHandler
| EvSetLevel (l : log_level)
| EvPrint (line : string).

Record state : Type := { world : World; trace : list event }.

(** ** The monad of the script: world, trace and exceptions *)

Definition M (A : Type) : Type := state -> (exn + A) * state.

Definition ret {A} (a : A) : M A := fun s => (inr a, s).

Definition raise {A} (e : exn) : M A := fun s => (inl e, s).

Definition bind {A B} (m : M A) (f : A -> M B) : M B :=
  fun s =>
    match m s with
    | (inl e, s') => (inl e, s')
    | (inr a, s') => f a s'
    end.

Definition emit (ev : event) : M unit :=
  fun s => (inr tt, {| world := world s; trace := trace s ++ [ev] |}).

(** How the outcome of a call is written down in the trace. *)
Definition recorded {A} (inj : A -> retval) (r : exn + A) : exn + retval :=
  match r with
  | inl e => inl e
  | inr a => inr (inj a)
  end.

(** An outside call: performed on the world and recorded with its outcome. *)
Definition ext {A} (c : call) (inj : A -> retval)
    (op : World -> (exn + A) * World) : M A :=
  fun s =>
    let '(r, w) := op (world s) in
    (r, {| world := w; trace := trace s ++ [EvCall c (recorded inj r)] |}).

(** [try: body finally: fin].  The handler always runs; when it raises, its
    exception is the one that propagates. *)
Definition try_finally {A} (body : M A) (fin : M unit) : M A :=
  fun s =>
    let '(r, s1) := body s in
    match fin s1 with
    | (inl e, s2) => (inl e, s2)
    | (inr _, s2) => (r, s2)
    end.

(** [l[0]] *)
Definition index0 {A} (l : list A) : exn + A :=
  match l with
  | x :: _ => inr x
  | [] => inl IndexError
  end.

Definition lift {A} (r : exn + A) : M A :=
  match r with
  | inl e => raise e
  | inr a => ret a
  end.

Definition print (v : value) : M unit := emit (EvPrint (py_str v)).

End Script.

Declare Scope script_scope.
Delimit Scope script_scope with script.
Notation "x <- m ;; k" := (bind m (fun x => k))
  (at level 61, m at next level, right associativity) : script_scope.
Notation "m ;;; k" := (bind m (fun _ => k))
  (at level 61, right associativity) : script_scope.

Section Program.

Context {E : Env}.
Local Open Scope script_scope.

(** ** Obtaining the bot (lines 147-161) *)

(** [args.os_version[0]] when the test of line 153 lets it through: [None]
    exactly when [not args.os_version or not args.os_version[0]]. *)
Definition os_version_arg (args : Args) : option string :=
  match os_version args with
  | Some s :: _ => if s =? "" then None else Some s
  | _ => None
  end.

Definition explicit_bot (args : Args) : M Bot :=
  match os_version_arg args with
  | None => raise (ValueError "No OS version has been set")
  | Some s =>
      v <- lift (OsVersion_parse s) ;;
      branch <- lift (index0 (branch_name args)) ;;
      user <- lift (index0 (osc_user args)) ;;
      ext (CStagingBot v branch user) RBot (StagingBot v branch user)
  end.

Definition acquire_bot (args : Args) : M Bot :=
  if load args then
    ext CFromEnvFile RBot from_env_file
  else if from_stdin args then
    comment <- ext CStdinRead RStr stdin_read ;;
    user <- lift (index0 (osc_user args)) ;;
    ext (CFromGithubComment comment user) RBot
        (from_github_comment comment user)
  else
    explicit_bot args.

(** ** Logging (lines 163-170) *)

Definition logger_level (args : Args) : log_level :=
  if (verbose args >? 0)%Z
  then LevelNo ((3 - Z.min (verbose args) 2) * 10)
  else LevelName "ERROR".

Definition configure_logging (args : Args) : M unit :=
  emit EvAddHandler ;;;
  emit (EvSetLevel (logger_level args)).

(** ** The coroutines of the actions (lines 178-225)

    Calling an [async def] only builds the coroutine; its body runs under
    [run_until_complete].  A coroutine is therefore a computation that has
    not been run yet. *)

Definition print_build_res (bot : Bot) : M value :=
  res <- ext CFetchBuildResults RBuild (fetch_build_results bot) ;;
  ret (VStr (render_as_markdown res)).

Definition _scratch (args : Args) (bot : Bot) : M value :=
  msg <- lift (index0 (commit_message args)) ;;
  commit_or_none <- ext (CScratchBuild msg) RVal (scratch_build bot msg) ;;
  ret (py_or commit_or_none (VStr "No changes")).

Definition _wait (args : Args) (bot : Bot) : M value :=
  t <- lift (index0 (timeout_sec args)) ;;
  res <- ext (CWaitForBuild (Passed t)) RBuild
             (wait_for_build_to_finish bot (Passed t)) ;;
  ret (VStr (render_as_markdown res)).

Definition _quality (bot : Bot) : M value :=
  build_res <- ext (CWaitForBuild Omitted) RBuild
                   (wait_for_build_to_finish bot Omitted) ;;
  if is_build_failed build_res
  then raise (RuntimeError "Build failed!")
  else ret (VStr "Build succeded").

(** The [if]/[elif] chain: which coroutine [coro] is bound to.  Building it
    touches nothing outside; only [args.commit_message[0]] of [commit_state]
    is evaluated here. *)
Definition dispatch (args : Args) (bot : Bot) : exn + option (M value) :=
  let action := action args in
  if py_eq action "rebuild" then
    inr (Some (ext CForceRebuild RVal (force_rebuild bot)))
  else if py_eq action "create_project" then
    inr (Some (ext CWritePkgConfigs RVal (write_pkg_configs bot)))
  else if py_eq action "commit_state" then
    match index0 (commit_message args) with
    | inl e => inl e
    | inr msg =>
        inr (Some (ext (CWriteAllBuildRecipes msg) RVal
                       (write_all_build_recipes_to_branch bot msg)))
    end
  else if py_eq action "query_build_result" then
    inr (Some (print_build_res bot))
  else if py_eq action "scratch_build" then
    inr (Some (_scratch args bot))
  else if py_eq action "cleanup" then
    let branches := negb (no_cleanup_branch args) in
    let obs_project := negb (no_cleanup_project args) in
    inr (Some (ext (CRemoteCleanup branches obs_project) RVal
                   (remote_cleanup bot branches obs_project)))
  else if py_eq action "wait" then
    inr (Some (_wait args bot))
  else if py_eq action "get_build_quality" then
    inr (Some (_quality bot))
  else
    inl (AssertionError ("invalid action: " ++ fmt_action action)%string).

(** [res = loop.run_until_complete(coro)] followed by [if res: print(res)]. *)
Definition run_and_print (coro : M value) : M unit :=
  res <- coro ;;
  if truthy res then print res else ret tt.

(** The body of the [try] (lines 175-232). *)
Definition run_action (args : Args) (bot : Bot) : M unit :=
  match dispatch args bot with
  | inl e => raise e
  | inr None => raise (AssertionError "")
  | inr (Some coro) => run_and_print coro
  end.

(** ** The script after [parse_args] (lines 141-234) *)

Definition main (args : Args) : M unit :=
  if load args && from_stdin args then
    raise (RuntimeError
             "The --from-stdin and --load flags are mutually exclusive")
  else if negb (str_truthy (action args)) then
    raise (RuntimeError "No action specified")
  else
    bot <- acquire_bot args ;;
    configure_logging args ;;;
    ext CSetup (fun _ => RUnit) (setup bot) ;;;
    try_finally (run_action args bot)
                (ext CTeardown (fun _ => RUnit) (teardown bot)).

(** One process run, from a world and an empty trace. *)
Definition run (args : Args) (w : World) : (exn + unit) * state :=
  main args {| world := w; trace := [] |}.

Definition outcome (args : Args) (w : World) : exn + unit :=
  fst (run args w).

Definition events (args : Args) (w : World) : list event :=
  trace (snd (run args w)).

(** An exception that nobody catches ends the process with status 1. *)
Definition exit_status (r : exn + unit) : Z :=
  match r with
  | inl _ => 1
  | inr _ => 0
  end.

(** ** Reading a trace *)

(** The lines written to standard output, in order. *)
Fixpoint printed (tr : list event) : list string :=
  match tr with
  | [] => []
  | EvPrint line :: tr' => line :: printed tr'
  | _ :: tr' => printed tr'
  end.

Definition is_teardown (ev : event) : bool :=
  match ev with
  | EvCall CTeardown _ => true
  | _ => false
  end.

Definition is_setup (ev : event) : bool :=
  match ev with
  | EvCall CSetup _ => true
  | _ => false
  end.

Definition is_setup_ok (ev : event) : bool :=
  match ev with
  | EvCall CSetup (inr _) => true
  | _ => false
  end.

(** A bot came into being: one of the three factories returned. *)
Definition is_bot_built (ev : event) : bool :=
  match ev with
  | EvCall CFromEnvFile (inr _) => true
  | EvCall (CFromGithubComment _ _) (inr _) => true
  | EvCall (CStagingBot _ _ _) (inr _) => true
  | _ => false
  end.

(** A factory of the bot was entered at all. *)
Definition is_bot_factory (ev : event) : bool :=
  match ev with
  | EvCall CFromEnvFile _ => true
  | EvCall (CFromGithubComment _ _) _ => true
  | EvCall (CStagingBot _ _ _) _ => true
  | _ => false
  end.

(** An operation of an action on the bot. *)
Definition is_action_call (ev : event) : bool :=
  match ev with
  | EvCall CForceRebuild _ => true
  | EvCall CWritePkgConfigs _ => true
  | EvCall (CWriteAllBuildRecipes _) _ => true
  | EvCall CFetchBuildResults _ => true
  | EvCall (CScratchBuild _) _ => true
  | EvCall (CRemoteCleanup _ _) _ => true
  | EvCall (CWaitForBuild _) _ => true
  | _ => false
  end.

Definition count (p : event -> bool) (tr : list event) : nat :=
  length (filter p tr).

(** The operations that actions performed on the bot, in order. *)
Definition action_calls (tr : list event) : list event :=
  filter is_action_call tr.

(** What happens before [setup]: reading the configuration, building the
    bot, configuring the logger. *)
Definition is_prelude (ev : event) : bool :=
  match ev with
  | EvCall CStdinRead _ => true
  | EvCall CFromEnvFile _ => true
  | EvCall (CFromGithubComment _ _) _ => true
  | EvCall (CStagingBot _ _ _) _ => true
  | EvAddHandler => true
  | EvSetLevel _ => true
  | _ => false
  end.

(** What happens inside the [try]: one operation on the bot, one [print]. *)
Definition is_action_ev (ev : event) : bool :=
  match ev with
  | EvPrint _ => true
  | _ => is_action_call ev
  end.

(** ** The three ways a run can go

    It stops before [setup] is reached, [setup] raises, or [setup] returns
    and the [try] statement runs the action and then the handler. *)
Inductive run_shape (args : Args) (s : state) (r : exn + unit) (s' : state)
  : Prop :=
| stopped_early (pre : list event) (e : exn) :
    r = inl e ->
    trace s' = trace s ++ pre ->
    Forall (fun ev => is_prelude ev = true) pre ->
    run_shape args s r s'
| setup_raised (pre : list event) (e : exn) :
    r = inl e ->
    trace s' = trace s ++ pre ++ [EvCall CSetup (inl e)] ->
    Forall (fun ev => is_prelude ev = true) pre ->
    run_shape args s r s'
| action_ran (pre act : list event) (bot : Bot) (s0 s1 : state)
             (rb : exn + unit) (rt : exn + retval) :
    str_truthy (action args) = true ->
    trace s0 = trace s ++ pre ++ [EvCall CSetup (inr RUnit)] ->
    Forall (fun ev => is_prelude ev = true) pre ->
    run_action args bot s0 = (rb, s1) ->
    trace s1 = trace s0 ++ act ->
    Forall (fun ev => is_action_ev ev = true) act ->
    trace s' = trace s1 ++ [EvCall CTeardown rt] ->
    r = match rt with inl e => inl e | inr _ => rb end ->
    run_shape args s r s'.

(** ** A run, step by step

    The same three ways, with the calls that decide between them. *)
Definition start (w : World) : state := {| world := w; trace := [] |}.

Definition logged (args : Args) (s : state) : list event :=
  trace s ++ [EvAddHandler; EvSetLevel (logger_level args)].

Inductive run_story (args : Args) (w : World)
  : exn + unit -> list event -> Prop :=
| story_conflict :
    load args && from_stdin args = true ->
    run_story args w
      (inl (RuntimeError
              "The --from-stdin and --load flags are mutually exclusive")) []
| story_no_action :
    load args && from_stdin args = false ->
    str_truthy (action args) = false ->
    run_story args w (inl (RuntimeError "No action specified")) []
| story_no_bot (e : exn) (s1 : state) :
    load args && from_stdin args = false ->
    str_truthy (action args) = true ->
    acquire_bot args (start w) = (inl e, s1) ->
    run_story args w (inl e) (trace s1)
| story_setup_raised (bot : Bot) (s1 : state) (e : exn) (w1 : World) :
    load args && from_stdin args = false ->
    str_truthy (action args) = true ->
    acquire_bot args (start w) = (inr bot, s1) ->
    setup bot (world s1) = (inl e, w1) ->
    run_story args w (inl e) (logged args s1 ++ [EvCall CSetup (inl e)])
| story_action (bot : Bot) (s1 s2 : state) (w1 w2 : World)
               (rb rt : exn + unit) :
    load args && from_stdin args = false ->
    str_truthy (action args) = true ->
    acquire_bot args (start w) = (inr bot, s1) ->
    setup bot (world s1) = (inr tt, w1) ->
    run_action args bot
      {| world := w1;
         trace := logged args s1 ++ [EvCall CSetup (inr RUnit)] |} =
      (rb, s2) ->
    teardown bot (world s2) = (rt, w2) ->
    run_story args w
      (match rt with inl e => inl e | inr _ => rb end)
      (trace s2 ++ [EvCall CTeardown (recorded (fun _ => RUnit) rt)]).

(** ** What the parser lets through

    The names given to [add_parser] (lines 91-136), in that order. *)
Definition subcommands : list string :=
  ["rebuild"; "create_project"; "cleanup"; "query_build_result";
   "commit_state"; "scratch_build"; "wait"; "get_build_quality"].

Definition one {A} (l : list A) : bool :=
  match l with
  | [_] => true
  | _ => false
  end.

(** The shape of every namespace the parser returns: an option declared with
    [nargs=1] holds a list of one element, whether given or defaulted;
    [action] is [None] or one of the subcommands; [verbose] counts. *)
Definition parsed_shape (args : Args) : bool :=
  one (os_version args) && one (osc_user args) && one (branch_name args) &&
  one (commit_message args) && one (timeout_sec args) &&
  (0 <=? verbose args)%Z &&
  match action args with
  | None => true
  | Some a => existsb (String.eqb a) subcommands
  end.

(** The exceptions that the script raises by itself, and the one it lets
    through from [OsVersion.parse]. *)
Definition script_error (args : Args) (e : exn) : Prop :=
  e = RuntimeError "The --from-stdin and --load flags are mutually exclusive"
  \/ e = RuntimeError "No action specified"
  \/ e = ValueError "No OS version has been set"
  \/ (exists s, os_version_arg args = Some s /\ OsVersion_parse s = inl e)
  \/ e = RuntimeError "Build failed!".

(** Two namespaces that differ at most in [os_version] and [branch_name]. *)
Definition same_but_version_and_branch (a b : Args) : Prop :=
  osc_user a = osc_user b /\
  load a = load b /\
  from_stdin a = from_stdin b /\
  verbose a = verbose b /\
  action a = action b /\
  commit_message a = commit_message b /\
  no_cleanup_branch a = no_cleanup_branch b /\
  no_cleanup_project a = no_cleanup_project b /\
  timeout_sec a = timeout_sec b.

Definition is_set_level (ev : event) : bool :=
  match ev with
  | EvSetLevel _ => true
  | _ => false
  end.

Definition raised (ev : event) : bool :=
  match ev with
  | EvCall _ (inl _) => true
  | _ => false
  end.

End Program.

(** ** The command line (lines 36-139)

    What [parser.parse_args()] makes of the options that were given.  The
    splitting of [sys.argv] into options, and [int()] on the value of
    [--timeout-sec], are argparse's and come before: a [Given] holds the
    options found, [None] for one that was not on the command line. *)
Inductive Subcommand : Type :=
| Rebuild
| CreateProject
| Cleanup (no_branch no_project : bool)
| QueryBuildResult
| CommitState (message : option string)
| ScratchBuild (message : option string)
| Wait (timeout : option Z)
| GetBuildQuality.

Record Given : Type := {
  given_os_version : option string;
  given_osc_user : option string;
  given_branch_name : option string;
  given_load : bool;
  given_from_stdin : bool;
  given_verbose : nat;
  given_subcommand : option Subcommand
}.

(** [parser.error]: usage on stderr and exit status 2. *)
Inductive parse_error : Type :=
| InvalidChoice (option_name value : string).

Definition subcommand_name (c : Subcommand) : string :=
  match c with
  | Rebuild => "rebuild"
  | CreateProject => "create_project"
  | Cleanup _ _ => "cleanup"
  | QueryBuildResult => "query_build_result"
  | CommitState _ => "commit_state"
  | ScratchBuild _ => "scratch_build"
  | Wait _ => "wait"
  | GetBuildQuality => "get_build_quality"
  end.

(** An option with [nargs=1]: the value given, in a list, or the default. *)
Definition nargs1 {A} (given : option A) (default : list A) : list A :=
  match given with
  | Some x => [x]
  | None => default
  end.

(** The option that [add_commit_message_arg] declares (lines 80-88), on the
    parsers of [commit_state] and [scratch_build]. *)
Definition add_commit_message_arg (given : option string) : list string :=
  nargs1 given [""].

Section CommandLine.

(** [os.getenv], the names of the three environment variables, and
    [[str(v) for v in ALL_OS_VERSIONS]]: from [os], [staging.bot] and
    [bci_build.package]. *)
Variable getenv : string -> option string.
Variables OS_VERSION_ENVVAR_NAME OSC_USER_ENVVAR_NAME BRANCH_NAME_ENVVAR_NAME
  : string.
Variable ALL_OS_VERSIONS : list string.

(** [os.getenv(name, default)] *)
Definition getenv_or (name default : string) : string :=
  match getenv name with
  | Some v => v
  | None => default
  end.

(** [choices] of [--os-version]: looked at only for a value that was given
    on the command line, not for the default. *)
Definition check_choices (g : Given) : parse_error + unit :=
  match given_os_version g with
  | Some v =>
      if existsb (String.eqb v) ALL_OS_VERSIONS then inr tt
      else inl (InvalidChoice "--os-version" v)
  | None => inr tt
  end.

Definition parse_args (g : Given) : parse_error + Args :=
  match check_choices g with
  | inl err => inl err
  | inr _ =>
      let sub := given_subcommand g in
      inr {|
        os_version :=
          nargs1 (option_map Some (given_os_version g))
                 [getenv OS_VERSION_ENVVAR_NAME];
        osc_user :=
          nargs1 (option_map Some (given_osc_user g))
                 [getenv OSC_USER_ENVVAR_NAME];
        branch_name :=
          nargs1 (given_branch_name g) [getenv_or BRANCH_NAME_ENVVAR_NAME ""];
        load := given_load g;
        from_stdin := given_from_stdin g;
        verbose := Z.of_nat (given_verbose g);
        action := option_map subcommand_name sub;
        commit_message :=
          match sub with
          | Some (CommitState m) | Some (ScratchBuild m) =>
              add_commit_message_arg m
          | _ => add_commit_message_arg None
          end;
        no_cleanup_branch :=
          match sub with
          | Some (Cleanup b _) => b
          | _ => false
          end;
        no_cleanup_project :=
          match sub with
          | Some (Cleanup _ p) => p
          | _ => false
          end;
        timeout_sec :=
          match sub with
          | Some (Wait t) => nargs1 (option_map Some t) [None]
          | _ => [None]
          end
      |}
  end.

End CommandLine.

(** ** A scripted world for concrete runs

    The outcome of every outside call is fixed in advance by a [Script];
    the world only counts the calls made so far. *)
Module Scripted.

Record Script : Type := {
  parse_ok : bool;
  build_ok : bool;
  setup_ok : bool;
  action_ok : bool;
  teardown_ok : bool;
  stdin_text : string;
  action_value : value;
  build_failed : bool;
  build_markdown : string
}.

Definition boom (what : string) : exn := Exn "OSError" what.

Definition answer {A} (ok : bool) (what : string) (a : A) (w : nat)
  : (exn + A) * nat :=
  (if ok then inr a else inl (boom what), S w).

Definition env (sc : Script) : Env := {|
  World := nat;
  Bot := unit;
  OsVersion := string;
  BuildResults := bool * string;
  OsVersion_parse := fun s =>
    if parse_ok sc then inr s else inl (ValueError "unknown OS version");
  stdin_read := answer true "stdin" (stdin_text sc);
  from_env_file := answer (build_ok sc) "from_env_file" tt;
  from_github_comment := fun _ _ =>
    answer (build_ok sc) "from_github_comment" tt;
  StagingBot := fun _ _ _ => answer (build_ok sc) "StagingBot" tt;
  setup := fun _ => answer (setup_ok sc) "setup" tt;
  teardown := fun _ => answer (teardown_ok sc) "teardown" tt;
  force_rebuild := fun _ =>
    answer (action_ok sc) "force_rebuild" (action_value sc);
  write_pkg_configs := fun _ =>
    answer (action_ok sc) "write_pkg_configs" (action_value sc);
  write_all_build_recipes_to_branch := fun _ _ =>
    answer (action_ok sc) "write_all_build_recipes_to_branch"
           (action_value sc);
  fetch_build_results := fun _ =>
    answer (action_ok sc) "fetch_build_results"
           (build_failed sc, build_markdown sc);
  scratch_build := fun _ _ =>
    answer (action_ok sc) "scratch_build" (action_value sc);
  remote_cleanup := fun _ _ _ =>
    answer (action_ok sc) "remote_cleanup" (action_value sc);
  wait_for_build_to_finish := fun _ _ =>
    answer (action_ok sc) "wait_for_build_to_finish"
           (build_failed sc, build_markdown sc);
  is_build_failed := fst;
  render_as_markdown := snd
|}.

(** Everything goes well; the build passed and renders as a short table. *)
Definition fine : Script := {|
  parse_ok := true;
  build_ok := true;
  setup_ok := true;
  action_ok := true;
  teardown_ok := true;
  stdin_text := "@bot please stage";
  action_value := VNone;
  build_failed := false;
  build_markdown := "| repo | ok |"
|}.

Definition with_value (v : value) (sc : Script) : Script := {|
  parse_ok := parse_ok sc;
  build_ok := build_ok sc;
  setup_ok := setup_ok sc;
  action_ok := action_ok sc;
  teardown_ok := teardown_ok sc;
  stdin_text := stdin_text sc;
  action_value := v;
  build_failed := build_failed sc;
  build_markdown := build_markdown sc
|}.

Definition with_build (failed : bool) (md : string) (sc : Script) : Script := {|
  parse_ok := parse_ok sc;
  build_ok := build_ok sc;
  setup_ok := setup_ok sc;
  action_ok := action_ok sc;
  teardown_ok := teardown_ok sc;
  stdin_text := stdin_text sc;
  action_value := action_value sc;
  build_failed := failed;
  build_markdown := md
|}.

(** The command line [--os-version Tumbleweed <action>]. *)
Definition cli (act : option string) : Args := {|
  os_version := [Some "Tumbleweed"];
  osc_user := [None];
  branch_name := [""];
  load := false;
  from_stdin := false;
  verbose := 0;
  action := act;
  commit_message := [""];
  no_cleanup_branch := false;
  no_cleanup_project := false;
  timeout_sec := [None]
|}.

Definition with_flags (l f : bool) (a : Args) : Args := {|
  os_version := os_version a;
  osc_user := osc_user a;
  branch_name := branch_name a;
  load := l;
  from_stdin := f;
  verbose := verbose a;
  action := action a;
  commit_message := commit_message a;
  no_cleanup_branch := no_cleanup_branch a;
  no_cleanup_project := no_cleanup_project a;
  timeout_sec := timeout_sec a
|}.

Definition with_os_version (v : list (option string)) (a : Args) : Args := {|
  os_version := v;
  osc_user := osc_user a;
  branch_name := branch_name a;
  load := load a;
  from_stdin := from_stdin a;
  verbose := verbose a;
  action := action a;
  commit_message := commit_message a;
  no_cleanup_branch := no_cleanup_branch a;
  no_cleanup_project := no_cleanup_project a;
  timeout_sec := timeout_sec a
|}.

Definition with_cleanup (ncb ncp : bool) (a : Args) : Args := {|
  os_version := os_version a;
  osc_user := osc_user a;
  branch_name := branch_name a;
  load := load a;
  from_stdin := from_stdin a;
  verbose := verbose a;
  action := action a;
  commit_message := commit_message a;
  no_cleanup_branch := ncb;
  no_cleanup_project := ncp;
  timeout_sec := timeout_sec a
|}.

Definition with_timeout (t : option Z) (a : Args) : Args := {|
  os_version := os_version a;
  osc_user := osc_user a;
  branch_name := branch_name a;
  load := load a;
  from_stdin := from_stdin a;
  verbose := verbose a;
  action := action a;
  commit_message := commit_message a;
  no_cleanup_branch := no_cleanup_branch a;
  no_cleanup_project := no_cleanup_project a;
  timeout_sec := [t]
|}.

(** Scripts in which an action, [teardown()] or [OsVersion.parse] fails. *)
Definition failing_action : Script := {|
  parse_ok := true;
  build_ok := true;
  setup_ok := true;
  action_ok := false;
  teardown_ok := true;
  stdin_text := "";
  action_value := VNone;
  build_failed := false;
  build_markdown := ""
|}.

Definition failing_teardown : Script := {|
  parse_ok := true;
  build_ok := true;
  setup_ok := true;
  action_ok := false;
  teardown_ok := false;
  stdin_text := "";
  action_value := VNone;
  build_failed := false;
  build_markdown := ""
|}.

Definition rejecting : Script := {|
  parse_ok := false;
  build_ok := true;
  setup_ok := true;
  action_ok := true;
  teardown_ok := true;
  stdin_text := "";
  action_value := VNone;
  build_failed := false;
  build_markdown := ""
|}.

(** An empty environment, and one with a single variable. *)
Definition no_environ : string -> option string := fun _ => None.

Definition environ (name value : string) : string -> option string :=
  fun n => if (n =? name)%string then Some value else None.

(** A command line with nothing but a subcommand. *)
Definition typed (sub : option Subcommand) : Given := {|
  given_os_version := None;
  given_osc_user := None;
  given_branch_name := None;
  given_load := false;
  given_from_stdin := false;
  given_verbose := 0;
  given_subcommand := sub
|}.

(** [parse_args] with the names of the variables and the choices fixed. *)
Definition parse_with (getenv : string -> option string) (g : Given)
  : parse_error + Args :=
  parse_args getenv "OS_VERSION" "OSC_USER" "BRANCH_NAME"
             ["Tumbleweed"; "15.6"] g.

(** The state of a scripted run after [w] calls with trace [tr]. *)
Definition after (sc : Script) (w : nat) (tr : list (@event (env sc)))
  : @state (env sc) :=
  @Build_state (env sc) w tr.

(** The bot of [cli] being built. *)
Definition built (sc : Script) : @event (env sc) :=
  EvCall (@CStagingBot (env sc) "Tumbleweed" "" None) (inr (@RBot (env sc) tt)).

End Scripted.


(** * Properties *)

Section Facts.

Context {E : Env}.
Local Open Scope script_scope.

(** ** Traces *)

Lemma count_app (p : event -> bool) (l1 l2 : list event) :
  count p (l1 ++ l2) = count p l1 + count p l2.
Proof.
  unfold count. rewrite filter_app, length_app. reflexivity.
Qed.

Lemma count_none (p q : event -> bool) (l : list event) :
  (forall ev, q ev = true -> p ev = false) ->
  Forall (fun ev => q ev = true) l ->
  count p l = 0.
Proof.
  intros Hpq Hl. unfold count.
  induction Hl as [|ev l Hev _ IH]; simpl.
  - reflexivity.
  - rewrite (Hpq ev Hev). exact IH.
Qed.

Lemma existsb_none (p q : event -> bool) (l : list event) :
  (forall ev, q ev = true -> p ev = false) ->
  Forall (fun ev => q ev = true) l ->
  existsb p l = false.
Proof.
  intros Hpq Hl.
  induction Hl as [|ev l Hev _ IH]; simpl.
  - reflexivity.
  - rewrite (Hpq ev Hev). exact IH.
Qed.

Lemma printed_app (l1 l2 : list event) :
  printed (l1 ++ l2) = printed l1 ++ printed l2.
Proof.
  induction l1 as [|ev l1 IH]; simpl.
  - reflexivity.
  - destruct ev; simpl; rewrite IH; reflexivity.
Qed.

Lemma printed_prelude (l : list event) :
  Forall (fun ev => is_prelude ev = true) l -> printed l = [].
Proof.
  induction 1 as [|ev l Hev _ IH]; simpl.
  - reflexivity.
  - destruct ev as [c r| | |line]; try exact IH. discriminate Hev.
Qed.

Lemma prelude_not_teardown ev : is_prelude ev = true -> is_teardown ev = false.
Proof. destruct ev as [[] ?| | |]; simpl; congruence. Qed.

Lemma prelude_not_setup ev : is_prelude ev = true -> is_setup ev = false.
Proof. destruct ev as [[] ?| | |]; simpl; congruence. Qed.

Lemma prelude_not_setup_ok ev : is_prelude ev = true -> is_setup_ok ev = false.
Proof. destruct ev as [[] []| | |]; simpl; congruence. Qed.

Lemma prelude_not_action ev :
  is_prelude ev = true -> is_action_call ev = false.
Proof. destruct ev as [[] ?| | |]; simpl; congruence. Qed.

Lemma action_not_teardown ev :
  is_action_ev ev = true -> is_teardown ev = false.
Proof. destruct ev as [[] ?| | |]; simpl; congruence. Qed.

Lemma action_not_setup ev : is_action_ev ev = true -> is_setup ev = false.
Proof. destruct ev as [[] ?| | |]; simpl; congruence. Qed.

Lemma app_one_more {A} (l l1 : list A) (x : A) :
  (l ++ l1) ++ [x] = l ++ (l1 ++ [x]).
Proof. symmetry. apply app_assoc. Qed.

(** Runs a computation symbolically: the monad is unfolded and every outside
    call is split into the outcomes it may have. *)
Ltac run_script :=
  repeat first
    [ progress (unfold bind, ret, raise, lift, emit, print, ext in * )
    | progress (cbn [fst snd world trace index0 recorded] in * )
    | match goal with
      | |- context [match ?x with (_, _) => _ end] =>
          match type of x with
          | (_ * World)%type =>
              let r := fresh "r" in
              let w := fresh "w" in
              let H := fresh "Hcall" in
              destruct x as [[r|r] w] eqn:H
          end
      | |- context [index0 ?l] =>
          let H := fresh "Hlist" in
          destruct l eqn:H
      end ].

(** ** What each phase writes to the trace *)

Lemma acquire_bot_trace (args : Args) (s : state) :
  exists pre,
    trace (snd (acquire_bot args s)) = trace s ++ pre /\
    Forall (fun ev => is_prelude ev = true) pre.
Proof.
  unfold acquire_bot, explicit_bot.
  destruct (load args); [|destruct (from_stdin args);
                           [|destruct (os_version_arg args);
                             [destruct (OsVersion_parse s0)|]]];
    run_script;
    repeat rewrite app_one_more.
  all: try (eexists; split; [reflexivity|repeat constructor]).
  all: try (exists []; rewrite app_nil_r; split; [reflexivity|constructor]).
Qed.

(** Splits the [if]/[elif] chain of [dispatch] into its nine branches. *)
Ltac split_dispatch :=
  unfold run_action, dispatch;
  repeat match goal with
         | |- context [if py_eq ?a ?lit then _ else _] =>
             let H := fresh "Hact" in
             destruct (py_eq a lit) eqn:H
         end.

Ltac split_coroutine :=
  unfold run_and_print, print_build_res, _scratch, _wait, _quality;
  run_script;
  repeat match goal with
         | |- context [if is_build_failed ?b then _ else _] =>
             let H := fresh "Hfailed" in
             destruct (is_build_failed b) eqn:H; run_script
         | |- context [if truthy ?v then _ else _] =>
             let H := fresh "Htruthy" in
             destruct (truthy v) eqn:H; run_script
         end.

Lemma run_action_trace (args : Args) (bot : Bot) (s : state) :
  exists act,
    trace (snd (run_action args bot s)) = trace s ++ act /\
    Forall (fun ev => is_action_ev ev = true) act /\
    count is_action_call act <= 1 /\
    length (printed act) <= 1.
Proof.
  split_dispatch; split_coroutine; repeat rewrite app_one_more.
  all: try (eexists; split; [reflexivity|];
            split; [repeat constructor|split; cbn; lia]).
  all: exists []; rewrite app_nil_r; split; [reflexivity|];
    split; [constructor|split; cbn; lia].
Qed.

(** ** The shape of a run *)

Lemma main_run_shape (args : Args) (s : state) :
  run_shape args s (fst (main args s)) (snd (main args s)).
Proof.
  unfold main.
  destruct (load args && from_stdin args).
  { apply stopped_early with (pre := []) (e := RuntimeError
      "The --from-stdin and --load flags are mutually exclusive");
      [reflexivity|cbn; now rewrite app_nil_r|constructor]. }
  destruct (str_truthy (action args)) eqn:Haction; cbn [negb].
  2:{ apply stopped_early with (pre := []) (e := RuntimeError
        "No action specified");
        [reflexivity|cbn; now rewrite app_nil_r|constructor]. }
  destruct (acquire_bot_trace args s) as (pre & Hpre & Hprelude).
  unfold configure_logging, try_finally, bind, emit, ext.
  destruct (acquire_bot args s) as [[e|bot] s1]; cbn [fst snd] in *.
  { apply stopped_early with (pre := pre) (e := e); auto. }
  assert (Hlog : Forall (fun ev => is_prelude ev = true)
                        (pre ++ [EvAddHandler; EvSetLevel (logger_level args)])).
  { apply Forall_app. split; [exact Hprelude|repeat constructor]. }
  cbn [world trace].
  destruct (setup bot (world s1)) as [[e|[]] w0]; cbn [recorded fst snd].
  { apply setup_raised
      with (pre := pre ++ [EvAddHandler; EvSetLevel (logger_level args)])
           (e := e); [reflexivity| |exact Hlog].
    cbn. rewrite Hpre. repeat rewrite <- app_assoc. reflexivity. }
  match goal with
  | |- context [run_action args bot ?s0] =>
      destruct (run_action_trace args bot s0) as (act & Hact & Haction_ev & _);
      destruct (run_action args bot s0) as [rb s2] eqn:Hbody
  end.
  cbn [snd trace] in Hact.
  destruct (teardown bot (world s2)) as [[e|[]] w1]; cbn [recorded fst snd].
  - eapply action_ran with (rt := inl e); try eassumption; try reflexivity.
    cbn. rewrite Hpre. repeat rewrite <- app_assoc. reflexivity.
  - eapply action_ran with (rt := inr RUnit); try eassumption; try reflexivity.
    cbn. rewrite Hpre. repeat rewrite <- app_assoc. reflexivity.
Qed.

Lemma action_calls_app (l1 l2 : list event) :
  action_calls (l1 ++ l2) = action_calls l1 ++ action_calls l2.
Proof. apply filter_app. Qed.

Lemma action_calls_prelude (l : list event) :
  Forall (fun ev => is_prelude ev = true) l -> action_calls l = [].
Proof.
  induction 1 as [|ev l Hev _ IH]; cbn.
  - reflexivity.
  - rewrite (prelude_not_action ev Hev). exact IH.
Qed.

(** Either [setup] did not return and nothing of the action happened, or it
    did and what the run shows of the action is what the [try] body did. *)
Lemma run_cases (args : Args) (w : World) :
  (existsb is_setup_ok (events args w) = false /\
   action_calls (events args w) = [] /\
   printed (events args w) = [] /\
   count is_teardown (events args w) = 0 /\
   exists e, outcome args w = inl e)
  \/
  (exists bot s0 rb s1 act rt,
      str_truthy (action args) = true /\
      existsb is_setup_ok (events args w) = true /\
      run_action args bot s0 = (rb, s1) /\
      trace s1 = trace s0 ++ act /\
      action_calls (events args w) = action_calls act /\
      printed (events args w) = printed act /\
      last (events args w) EvAddHandler = EvCall CTeardown rt /\
      outcome args w = match rt with inl e => inl e | inr _ => rb end).
Proof.
  unfold events, outcome, run.
  destruct (main_run_shape args {| world := w; trace := [] |})
    as [pre e Hr Htr Hpre
       |pre e Hr Htr Hpre
       |pre act bot s0 s1 rb rt Hgiven Hs0 Hpre Hbody Hs1 Hact Htr Hr];
    cbn [trace] in *.
  - left. rewrite Htr, Hr. cbn [app].
    rewrite (existsb_none _ _ pre prelude_not_setup_ok Hpre).
    rewrite (action_calls_prelude pre Hpre), (printed_prelude pre Hpre).
    rewrite (count_none _ _ pre prelude_not_teardown Hpre).
    repeat split; eauto.
  - left. rewrite Htr, Hr. cbn [app].
    rewrite existsb_app, action_calls_app, printed_app, count_app.
    rewrite (existsb_none _ _ pre prelude_not_setup_ok Hpre).
    rewrite (action_calls_prelude pre Hpre), (printed_prelude pre Hpre).
    rewrite (count_none _ _ pre prelude_not_teardown Hpre).
    repeat split; eauto.
  - right. exists bot, s0, rb, s1, act, rt.
    rewrite Htr, Hs1, Hs0, Hr. cbn [app].
    repeat rewrite existsb_app. repeat rewrite action_calls_app.
    repeat rewrite printed_app.
    rewrite (action_calls_prelude pre Hpre), (printed_prelude pre Hpre).
    cbn. rewrite orb_true_r, !app_nil_r.
    repeat split; auto.
    apply last_last.
Qed.

Lemma In_prelude_not_setup (l : list event) (r : exn + retval) :
  Forall (fun ev => is_prelude ev = true) l -> ~ In (EvCall CSetup r) l.
Proof.
  intros Hl Hin. rewrite Forall_forall in Hl.
  specialize (Hl _ Hin). discriminate Hl.
Qed.

Lemma In_action_not_setup (l : list event) (r : exn + retval) :
  Forall (fun ev => is_action_ev ev = true) l -> ~ In (EvCall CSetup r) l.
Proof.
  intros Hl Hin. rewrite Forall_forall in Hl.
  specialize (Hl _ Hin). discriminate Hl.
Qed.

(** ** Lifecycle *)

(** The handler of [try ... finally] runs on the state the body left behind,
    whatever the body's outcome was. *)
Lemma try_finally_runs_handler {A} (body : M A) (fin : M unit) (s : state) :
  snd (try_finally body fin s) = snd (fin (snd (body s))).
Proof.
  unfold try_finally.
  destruct (body s) as [r s1]; cbn [snd].
  destruct (fin s1) as [[e|u] s2]; reflexivity.
Qed.

(** C1.  [teardown()] is called exactly once when [setup()] returned and not
    at all otherwise.  When [setup()] returned, the run is: the prelude, the
    call of [setup], what the action did (whether it returned or raised, see
    the outcome recorded with its call), and last the call of [teardown].
    When [setup()] raised, there is no call of [teardown].  The [try]
    statement on its own calls [teardown] once, right after its body,
    whether the body ended in a value or in an exception. *)
Theorem teardown_once_iff_setup_succeeded (args : Args) (w : World) :
  count is_teardown (events args w) =
    (if existsb is_setup_ok (events args w) then 1 else 0) /\
  (forall bot s rb s1,
      run_action args bot s = (rb, s1) ->
      let after_try :=
        trace (snd (try_finally (run_action args bot)
                                (ext CTeardown (fun _ => RUnit) (teardown bot))
                                s)) in
      count is_teardown after_try = count is_teardown (trace s) + 1 /\
      exists rt, after_try = trace s1 ++ [EvCall CTeardown rt]) /\
  count is_setup (events args w) <= 1 /\
  (existsb is_setup_ok (events args w) = true ->
   exists before act rt,
     events args w =
       before ++ [EvCall CSetup (inr RUnit)] ++ act ++ [EvCall CTeardown rt] /\
     Forall (fun ev => is_prelude ev = true) before /\
     Forall (fun ev => is_action_ev ev = true) act) /\
  (forall e, In (EvCall CSetup (inl e)) (events args w) ->
             count is_teardown (events args w) = 0).
Proof.
  assert (Htry : forall bot s rb s1,
             run_action args bot s = (rb, s1) ->
             let after_try :=
               trace (snd (try_finally
                             (run_action args bot)
                             (ext CTeardown (fun _ => RUnit) (teardown bot))
                             s)) in
             count is_teardown after_try = count is_teardown (trace s) + 1 /\
             exists rt, after_try = trace s1 ++ [EvCall CTeardown rt]).
  { intros bot s rb s1 Hbody after_try. subst after_try.
    rewrite try_finally_runs_handler, Hbody. cbn [snd].
    destruct (run_action_trace args bot s) as (act & Hact & Hquiet & _).
    rewrite Hbody in Hact. cbn [snd] in Hact.
    unfold ext. destruct (teardown bot (world s1)) as [rt w1]. cbn [snd trace].
    split; [|eauto].
    rewrite Hact, !count_app.
    rewrite (count_none _ _ act action_not_teardown Hquiet). cbn. lia. }
  assert (Hrun :
            count is_teardown (events args w) =
              (if existsb is_setup_ok (events args w) then 1 else 0) /\
            count is_setup (events args w) <= 1 /\
            (existsb is_setup_ok (events args w) = true ->
             exists before act rt,
               events args w =
                 before ++ [EvCall CSetup (inr RUnit)] ++ act
                        ++ [EvCall CTeardown rt] /\
               Forall (fun ev => is_prelude ev = true) before /\
               Forall (fun ev => is_action_ev ev = true) act) /\
            (forall e, In (EvCall CSetup (inl e)) (events args w) ->
                       count is_teardown (events args w) = 0));
    [clear Htry|destruct Hrun as (Honce & Hrest); auto].
  unfold events, run.
  destruct (main_run_shape args {| world := w; trace := [] |})
    as [pre e Hr Htr Hpre
       |pre e Hr Htr Hpre
       |pre act bot s0 s1 rb rt Hgiven Hs0 Hpre Hbody Hs1 Hact Htr Hr];
    cbn [trace app] in *.
  - rewrite Htr.
    rewrite (existsb_none _ _ pre prelude_not_setup_ok Hpre).
    rewrite (count_none _ _ pre prelude_not_teardown Hpre).
    rewrite (count_none _ _ pre prelude_not_setup Hpre).
    repeat split; auto; discriminate.
  - rewrite Htr. rewrite existsb_app, !count_app.
    rewrite (existsb_none _ _ pre prelude_not_setup_ok Hpre).
    rewrite (count_none _ _ pre prelude_not_teardown Hpre).
    rewrite (count_none _ _ pre prelude_not_setup Hpre).
    cbn. repeat split; auto; discriminate.
  - rewrite Htr, Hs1, Hs0. rewrite !existsb_app, !count_app.
    rewrite (count_none _ _ pre prelude_not_teardown Hpre).
    rewrite (count_none _ _ pre prelude_not_setup Hpre).
    rewrite (count_none _ _ act action_not_teardown Hact).
    rewrite (count_none _ _ act action_not_setup Hact).
    cbn. rewrite orb_true_r. cbn.
    split; [reflexivity|]. split; [lia|]. split.
    + intros _. exists pre, act, rt. rewrite <- !app_assoc. auto.
    + intros e Hin. exfalso.
      rewrite !in_app_iff in Hin.
      destruct Hin as [[[Hin|Hin]|Hin]|Hin].
      * exact (In_prelude_not_setup _ _ Hpre Hin).
      * destruct Hin as [Heq|[]]. discriminate Heq.
      * exact (In_action_not_setup _ _ Hact Hin).
      * destruct Hin as [Heq|[]]. discriminate Heq.
Qed.

(** ** Configuration *)

(** C3.  With both [--load] and [--from-stdin] the script raises at once:
    nothing has been called, so no bot was built and neither [setup()] nor
    [teardown()] ran, and the world is as it was. *)
Theorem conflicting_sources_fail_at_once (args : Args) (w : World) :
  load args = true ->
  from_stdin args = true ->
  run args w =
    (inl (RuntimeError
            "The --from-stdin and --load flags are mutually exclusive"),
     {| world := w; trace := [] |}) /\
  existsb is_bot_factory (events args w) = false /\
  count is_setup (events args w) = 0 /\
  count is_teardown (events args w) = 0 /\
  exit_status (outcome args w) = 1%Z.
Proof.
  intros Hload Hstdin.
  unfold events, outcome, run, main. rewrite Hload, Hstdin.
  cbn. repeat split; reflexivity.
Qed.

(** C10, as the script has it.  Without a subcommand the script raises before
    anything is called: no bot is built, [setup()] and [teardown()] do not
    run.  The error is "No action specified" unless both [--load] and
    [--from-stdin] are given as well, which is reported first. *)
Theorem no_action_fails_before_any_handle (args : Args) (w : World) :
  action args = None ->
  run args w =
    (inl (RuntimeError
            (if load args && from_stdin args
             then "The --from-stdin and --load flags are mutually exclusive"
             else "No action specified")),
     {| world := w; trace := [] |}) /\
  existsb is_bot_factory (events args w) = false /\
  count is_setup (events args w) = 0 /\
  count is_teardown (events args w) = 0 /\
  exit_status (outcome args w) = 1%Z.
Proof.
  intros Hnone.
  unfold events, outcome, run, main. rewrite Hnone.
  destruct (load args && from_stdin args); cbn; repeat split; reflexivity.
Qed.

Lemma os_version_arg_none (args : Args) :
  os_version_arg args = None <->
  os_version args = [] \/
  exists rest, os_version args = None :: rest \/
               os_version args = Some "" :: rest.
Proof.
  unfold os_version_arg.
  destruct (os_version args) as [|[s|] rest].
  - split; auto.
  - destruct (String.eqb_spec s "") as [->|Hne]; split.
    + intros _. right. exists rest. auto.
    + reflexivity.
    + discriminate.
    + intros [Hnil|(rest' & [Hc|Hc])]; try discriminate.
      inversion Hc. congruence.
  - split; [|reflexivity]. intros _. right. exists rest. auto.
Qed.

(** C4.  In the explicit mode a missing OS version, or one that
    [OsVersion.parse] rejects, makes the script raise with nothing called
    yet; when a subcommand was given the exception is the [ValueError] of
    line 154, respectively the one [OsVersion.parse] raised.  A factory of
    the bot is entered only with an OS version that is present and parses. *)
Theorem explicit_mode_validates_os_version (args : Args) (w : World) :
  load args = false ->
  from_stdin args = false ->
  (os_version_arg args = None ->
   exists e,
     run args w = (inl e, {| world := w; trace := [] |}) /\
     (str_truthy (action args) = true ->
      e = ValueError "No OS version has been set")) /\
  (forall s e,
      os_version_arg args = Some s ->
      OsVersion_parse s = inl e ->
      exists e',
        run args w = (inl e', {| world := w; trace := [] |}) /\
        (str_truthy (action args) = true -> e' = e)) /\
  (events args w <> [] ->
   exists s v, os_version_arg args = Some s /\ OsVersion_parse s = inr v) /\
  (existsb is_bot_built (events args w) = true ->
   exists s v, os_version_arg args = Some s /\ OsVersion_parse s = inr v).
Proof.
  intros Hload Hstdin.
  destruct (os_version_arg args) as [s|] eqn:Hver;
    [destruct (OsVersion_parse s) as [e|v] eqn:Hparse|].
  - (* present, rejected by the parser *)
    assert (Hrun : exists e',
               run args w = (inl e', {| world := w; trace := [] |}) /\
               (str_truthy (action args) = true -> e' = e)).
    { unfold run, main, acquire_bot, explicit_bot.
      rewrite Hload, Hstdin, Hver. cbn [andb].
      destruct (str_truthy (action args)); cbn [negb].
      - unfold bind, lift. rewrite Hparse. cbn. eauto.
      - eexists. split; [reflexivity|discriminate]. }
    destruct Hrun as (e' & Hrun & He').
    unfold events. rewrite Hrun. cbn [snd trace existsb].
    repeat split; try discriminate; try congruence.
    intros s' e0 Hs He0. inversion Hs; subst s'.
    rewrite Hparse in He0. inversion He0; subst e0. eauto.
  - (* present and parsed *)
    repeat split; try discriminate; eauto.
    intros s' e Hs He. inversion Hs; subst s'. congruence.
  - (* missing *)
    assert (Hrun : exists e,
               run args w = (inl e, {| world := w; trace := [] |}) /\
               (str_truthy (action args) = true ->
                e = ValueError "No OS version has been set")).
    { unfold run, main, acquire_bot, explicit_bot.
      rewrite Hload, Hstdin, Hver. cbn [andb].
      destruct (str_truthy (action args)); cbn [negb].
      - cbn. eauto.
      - eexists. split; [reflexivity|discriminate]. }
    destruct Hrun as (e & Hrun & He).
    unfold events. rewrite Hrun. cbn [snd trace existsb].
    repeat split; try discriminate; try congruence; eauto.
Qed.

(** ** The actions *)

Lemma app_same_nil {A} (l l' : list A) : l = l ++ l' -> l' = [].
Proof.
  intros H. apply (app_inv_head l). rewrite app_nil_r. symmetry. exact H.
Qed.

(** Opens the [try] body of a run whose action is known: every outcome of
    its calls becomes a case, and [act] becomes the events of that case. *)
Ltac open_body Hbody Hs1 :=
  revert Hbody; split_coroutine; intros Hbody;
  inversion Hbody; subst; clear Hbody;
  cbn [trace] in Hs1; repeat rewrite app_one_more in Hs1;
  first [apply app_inv_head in Hs1 | apply app_same_nil in Hs1];
  subst;
  try match goal with
      | H : truthy (VStr _) = _ |- _ => solve [cbn in H; discriminate H]
      end.

Lemma run_action_quality (args : Args) (bot : Bot) (s : state) :
  action args = Some "get_build_quality" ->
  run_action args bot s = run_and_print (_quality bot) s.
Proof.
  intros H. unfold run_action, dispatch. rewrite H. reflexivity.
Qed.

(** C2.  A run of [get_build_quality] that gets past [setup()] performs one
    operation on the bot, [wait_for_build_to_finish()] without a timeout.
    When [is_build_failed] holds of the result the run ends in an exception
    (exit status 1; it is "Build failed!" when [teardown()] returns) and
    nothing is printed, so "Build succeded" is not; otherwise exactly
    "Build succeded" is printed. *)
Theorem get_build_quality_verdict (args : Args) (w : World) :
  action args = Some "get_build_quality" ->
  existsb is_setup_ok (events args w) = true ->
  exists rr : exn + BuildResults,
    action_calls (events args w) =
      [EvCall (CWaitForBuild Omitted) (recorded RBuild rr)] /\
    match rr with
    | inl e =>
        printed (events args w) = [] /\ exists e', outcome args w = inl e'
    | inr res =>
        if is_build_failed res then
          (exists e, outcome args w = inl e) /\
          exit_status (outcome args w) = 1%Z /\
          (last (events args w) EvAddHandler = EvCall CTeardown (inr RUnit) ->
           outcome args w = inl (RuntimeError "Build failed!")) /\
          printed (events args w) = [] /\
          ~ In "Build succeded" (printed (events args w))
        else
          printed (events args w) = ["Build succeded"] /\
          (last (events args w) EvAddHandler = EvCall CTeardown (inr RUnit) ->
           outcome args w = inr tt)
    end.
Proof.
  intros Haction Hsetup.
  destruct (run_cases args w)
    as [(Hno & _)
       |(bot & s0 & rb & s1 & act & rt & _ & _ & Hbody & Hs1 & Hcalls
         & Hprinted & Hlast & Hout)];
    [congruence|].
  rewrite Hcalls, Hprinted, Hlast, Hout.
  rewrite (run_action_quality _ _ _ Haction) in Hbody.
  open_body Hbody Hs1.
  - exists (inl r). cbn. split; [reflexivity|]. split; [reflexivity|].
    destruct rt; eauto.
  - exists (inr r). rewrite Hfailed. cbn.
    split; [reflexivity|]. repeat split.
    + destruct rt; eauto.
    + destruct rt; reflexivity.
    + intros Hrt. inversion Hrt. reflexivity.
    + tauto.
  - exists (inr r). rewrite Hfailed. cbn.
    split; [reflexivity|]. split; [reflexivity|].
    intros Hrt. inversion Hrt. reflexivity.
Qed.

Lemma run_action_query (args : Args) (bot : Bot) (s : state) :
  action args = Some "query_build_result" ->
  run_action args bot s = run_and_print (print_build_res bot) s.
Proof.
  intros H. unfold run_action, dispatch. rewrite H. reflexivity.
Qed.

Lemma run_action_wait (args : Args) (bot : Bot) (s : state) :
  action args = Some "wait" ->
  run_action args bot s = run_and_print (_wait args bot) s.
Proof.
  intros H. unfold run_action, dispatch. rewrite H. reflexivity.
Qed.

Lemma run_action_scratch (args : Args) (bot : Bot) (s : state) :
  action args = Some "scratch_build" ->
  run_action args bot s = run_and_print (_scratch args bot) s.
Proof.
  intros H. unfold run_action, dispatch. rewrite H. reflexivity.
Qed.

Lemma run_action_cleanup (args : Args) (bot : Bot) (s : state) :
  action args = Some "cleanup" ->
  run_action args bot s =
  run_and_print
    (ext (CRemoteCleanup (negb (no_cleanup_branch args))
                         (negb (no_cleanup_project args))) RVal
         (remote_cleanup bot (negb (no_cleanup_branch args))
                         (negb (no_cleanup_project args)))) s.
Proof.
  intros H. unfold run_action, dispatch. rewrite H. reflexivity.
Qed.

Lemma truthy_str_false (s : string) : truthy (VStr s) = false -> s = "".
Proof.
  cbn. intros H. apply String.eqb_eq. now destruct (s =? "")%string.
Qed.

Lemma truthy_str_true (s : string) :
  truthy (VStr s) = true -> (s =? "")%string = false.
Proof.
  cbn. intros H. now destruct (s =? "")%string.
Qed.

(** C5.  In a run of [query_build_result] or [wait] the only operation on
    the bot is [fetch_build_results()], respectively
    [wait_for_build_to_finish(timeout_sec=args.timeout_sec[0])].  When the
    run completes normally, the operation returned a result set and what was
    printed is its markdown rendering, character for character: one [print]
    of the rendering, none when the rendering is empty. *)
Theorem query_and_wait_print_markdown (args : Args) (w : World) :
  action args = Some "query_build_result" \/ action args = Some "wait" ->
  (forall c rr,
      In (EvCall c rr) (action_calls (events args w)) ->
      (action args = Some "query_build_result" -> c = CFetchBuildResults) /\
      (action args = Some "wait" ->
       exists t rest,
         timeout_sec args = t :: rest /\ c = CWaitForBuild (Passed t))) /\
  (outcome args w = inr tt ->
   exists c res,
     action_calls (events args w) = [EvCall c (inr (RBuild res))] /\
     printed (events args w) =
       (if (render_as_markdown res =? "")%string
        then []
        else [render_as_markdown res]) /\
     String.concat "" (printed (events args w)) = render_as_markdown res).
Proof.
  intros Haction.
  destruct (run_cases args w)
    as [(_ & Hcalls & _ & _ & e & Hout)
       |(bot & s0 & rb & s1 & act & rt & _ & _ & Hbody & Hs1 & Hcalls
         & Hprinted & _ & Hout)].
  { rewrite Hcalls, Hout. split; [intros c rr []|discriminate]. }
  rewrite Hcalls, Hprinted, Hout.
  destruct Haction as [Haction|Haction].
  - rewrite (run_action_query _ _ _ Haction) in Hbody.
    open_body Hbody Hs1; cbn.
    + split; [|destruct rt; discriminate].
      intros c rr [Heq|[]]. inversion Heq. split; [auto|congruence].
    + split.
      * intros c rr [Heq|[]]. inversion Heq. split; [auto|congruence].
      * intros _. do 2 eexists. split; [reflexivity|].
        rewrite (truthy_str_true _ Htruthy). split; reflexivity.
    + split.
      * intros c rr [Heq|[]]. inversion Heq. split; [auto|congruence].
      * intros _. do 2 eexists. split; [reflexivity|].
        rewrite (truthy_str_false _ Htruthy). split; reflexivity.
  - rewrite (run_action_wait _ _ _ Haction) in Hbody.
    open_body Hbody Hs1; cbn.
    + split; [intros c rr []|destruct rt; discriminate].
    + split; [|destruct rt; discriminate].
      intros c rr [Heq|[]]. inversion Heq. split; [congruence|eauto].
    + split.
      * intros c rr [Heq|[]]. inversion Heq. split; [congruence|eauto].
      * intros _. do 2 eexists. split; [reflexivity|].
        rewrite (truthy_str_true _ Htruthy). split; reflexivity.
    + split.
      * intros c rr [Heq|[]]. inversion Heq. split; [congruence|eauto].
      * intros _. do 2 eexists. split; [reflexivity|].
        rewrite (truthy_str_false _ Htruthy). split; reflexivity.
Qed.

(** What a run of [scratch_build] prints once [scratch_build()] returned
    [v]: [v or "No changes"]. *)
Lemma scratch_build_output (args : Args) (w : World) (msg : string) (v : value) :
  action args = Some "scratch_build" ->
  action_calls (events args w) = [EvCall (CScratchBuild msg) (inr (RVal v))] ->
  index0 (commit_message args) = inr msg /\
  printed (events args w) = [py_str (py_or v (VStr "No changes"))].
Proof.
  intros Haction Hreturned.
  destruct (run_cases args w)
    as [(_ & Hcalls & _)
       |(bot & s0 & rb & s1 & act & rt & _ & _ & Hbody & Hs1 & Hcalls
         & Hprinted & _ & Hout)].
  { rewrite Hcalls in Hreturned. discriminate. }
  rewrite Hcalls in Hreturned. rewrite Hprinted. clear Hcalls Hprinted Hout.
  rewrite (run_action_scratch _ _ _ Haction) in Hbody.
  open_body Hbody Hs1; cbn in Hreturned; try discriminate;
    inversion Hreturned; subst; cbn [printed]; auto.
  exfalso. unfold py_or in Htruthy.
  destruct (truthy v) eqn:Hv; cbn in Htruthy; congruence.
Qed.

(** C6.  In a run of [scratch_build] whose [scratch_build()] returned [None]
    exactly "No changes" is printed; when it returned a commit identifier,
    such as "abc123", exactly the identifier is printed.  The commit message
    handed over is [args.commit_message[0]]. *)
Theorem scratch_build_prints_commit_or_no_changes
    (args : Args) (w : World) (msg : string) (v : value) :
  action args = Some "scratch_build" ->
  action_calls (events args w) = [EvCall (CScratchBuild msg) (inr (RVal v))] ->
  index0 (commit_message args) = inr msg /\
  (v = VNone -> printed (events args w) = ["No changes"]) /\
  (forall id, id <> "" -> v = VStr id -> printed (events args w) = [id]) /\
  (v = VStr "abc123" -> printed (events args w) = ["abc123"]).
Proof.
  intros Haction Hreturned.
  destruct (scratch_build_output args w msg v Haction Hreturned)
    as (Hmsg & Hprinted).
  rewrite Hprinted. split; [exact Hmsg|].
  split; [intros ->; reflexivity|].
  split; [|intros ->; reflexivity].
  intros id Hid ->. unfold py_or. cbn.
  destruct (String.eqb_spec id "") as [->|_]; [contradiction|reflexivity].
Qed.

(** C9.  In a run of [scratch_build] whose [scratch_build()] returned the
    empty string, "No changes" is printed, as for [None]: the test is the
    truth value of what was returned.  Every false value is treated so. *)
Theorem scratch_build_empty_commit_is_no_changes
    (args : Args) (w : World) (msg : string) (v : value) :
  action args = Some "scratch_build" ->
  action_calls (events args w) = [EvCall (CScratchBuild msg) (inr (RVal v))] ->
  (v = VStr "" -> printed (events args w) = ["No changes"]) /\
  (v = VNone -> printed (events args w) = ["No changes"]) /\
  (truthy v = false -> printed (events args w) = ["No changes"]).
Proof.
  intros Haction Hreturned.
  destruct (scratch_build_output args w msg v Haction Hreturned)
    as (_ & Hprinted).
  rewrite Hprinted.
  repeat split; try (intros ->; reflexivity).
  intros Hfalse. unfold py_or. rewrite Hfalse. reflexivity.
Qed.

(** C7.  A run of [cleanup] that gets past [setup()] performs one operation
    on the bot, [remote_cleanup] with [branches = not args.no_cleanup_branch]
    and [obs_project = not args.no_cleanup_project]: each flag switches off
    its own argument and leaves the other alone. *)
Theorem cleanup_flags_are_independent (args : Args) (w : World) :
  action args = Some "cleanup" ->
  existsb is_setup_ok (events args w) = true ->
  (exists rr,
      action_calls (events args w) =
        [EvCall (CRemoteCleanup (negb (no_cleanup_branch args))
                                (negb (no_cleanup_project args))) rr]) /\
  (forall branches obs_project rr,
      In (EvCall (CRemoteCleanup branches obs_project) rr) (events args w) ->
      (no_cleanup_branch args = false -> branches = true) /\
      (no_cleanup_branch args = true -> branches = false) /\
      (no_cleanup_project args = false -> obs_project = true) /\
      (no_cleanup_project args = true -> obs_project = false)).
Proof.
  intros Haction Hsetup.
  assert (Hcall : exists rr,
             action_calls (events args w) =
               [EvCall (CRemoteCleanup (negb (no_cleanup_branch args))
                                       (negb (no_cleanup_project args))) rr]).
  { destruct (run_cases args w)
      as [(Hno & _)
         |(bot & s0 & rb & s1 & act & rt & _ & _ & Hbody & Hs1 & Hcalls & _)];
      [congruence|].
    rewrite Hcalls.
    rewrite (run_action_cleanup _ _ _ Haction) in Hbody.
    open_body Hbody Hs1; cbn; eauto. }
  split; [exact Hcall|].
  destruct Hcall as (rr0 & Hcall).
  intros branches obs_project rr Hin.
  assert (Hin' : In (EvCall (CRemoteCleanup branches obs_project) rr)
                    (action_calls (events args w))).
  { apply filter_In. split; [exact Hin|reflexivity]. }
  rewrite Hcall in Hin'. destruct Hin' as [Heq|[]].
  inversion Heq; subst.
  repeat split; intros ->; reflexivity.
Qed.

(** The coroutines of the actions do not print; only line 232 does. *)
Lemma dispatched_coro_prints_nothing
    (args : Args) (bot : Bot) (coro : M value) (s : state) :
  dispatch args bot = inr (Some coro) ->
  printed (trace (snd (coro s))) = printed (trace s).
Proof.
  unfold dispatch.
  repeat match goal with
         | |- context [if py_eq ?a ?lit then _ else _] =>
             destruct (py_eq a lit)
         end;
    try discriminate;
    try (destruct (index0 (commit_message args)); try discriminate);
    intros Hcoro; inversion Hcoro; subst coro; clear Hcoro;
    split_coroutine; rewrite ?printed_app; cbn; rewrite ?app_nil_r;
    reflexivity.
Qed.

(** An empty rendering of the result set leaves the output of
    [query_build_result] and [wait] empty. *)
Lemma empty_markdown_prints_nothing (args : Args) (w : World) c res :
  action args = Some "query_build_result" \/ action args = Some "wait" ->
  action_calls (events args w) = [EvCall c (inr (RBuild res))] ->
  render_as_markdown res = "" ->
  printed (events args w) = [].
Proof.
  intros Haction Hreturned Hempty.
  destruct (run_cases args w)
    as [(_ & _ & Hnothing & _)
       |(bot & s0 & rb & s1 & act & rt & _ & _ & Hbody & Hs1 & Hcalls
         & Hprinted & _)];
    [exact Hnothing|].
  rewrite Hcalls in Hreturned. rewrite Hprinted. clear Hcalls Hprinted.
  destruct Haction as [Haction|Haction];
    [rewrite (run_action_query _ _ _ Haction) in Hbody
    |rewrite (run_action_wait _ _ _ Haction) in Hbody];
    open_body Hbody Hs1; cbn in Hreturned; try discriminate;
    try reflexivity;
    inversion Hreturned; subst;
    rewrite Hempty in Htruthy; discriminate Htruthy.
Qed.

(** C8.  The [try] body prints the value of the dispatched coroutine when
    that value is true and prints nothing otherwise: nothing for [None] and
    for the empty string, and nothing when the coroutine raised.  So a run
    of [query_build_result] or [wait] whose result set renders as the empty
    string prints nothing, not an empty line. *)
Theorem output_iff_value_truthy
    (args : Args) (bot : Bot) (coro : M value) (s : state) (w : World) :
  dispatch args bot = inr (Some coro) ->
  printed (trace (snd (run_action args bot s))) =
    printed (trace s) ++
    match fst (coro s) with
    | inr v => if truthy v then [py_str v] else []
    | inl _ => []
    end /\
  (forall v,
      fst (coro s) = inr v ->
      (printed (trace (snd (run_action args bot s))) <> printed (trace s)
       <-> truthy v = true) /\
      (v = VNone \/ v = VStr "" ->
       printed (trace (snd (run_action args bot s))) = printed (trace s))) /\
  (action args = Some "query_build_result" \/ action args = Some "wait" ->
   forall c res,
     action_calls (events args w) = [EvCall c (inr (RBuild res))] ->
     render_as_markdown res = "" ->
     printed (events args w) = []).
Proof.
  intros Hdispatch.
  assert (Hbody :
            printed (trace (snd (run_action args bot s))) =
            printed (trace s) ++
            match fst (coro s) with
            | inr v => if truthy v then [py_str v] else []
            | inl _ => []
            end).
  { pose proof (dispatched_coro_prints_nothing args bot coro s Hdispatch)
      as Hquiet.
    unfold run_action. rewrite Hdispatch.
    unfold run_and_print, bind, print, emit, ret.
    destruct (coro s) as [[e|v] s1]; cbn [fst snd] in *.
    - rewrite Hquiet, app_nil_r. reflexivity.
    - destruct (truthy v); cbn [snd trace].
      + rewrite printed_app, Hquiet. reflexivity.
      + rewrite Hquiet, app_nil_r. reflexivity. }
  split; [exact Hbody|]. split.
  - intros v Hv. rewrite Hbody, Hv. split.
    + destruct (truthy v).
      * split; [reflexivity|]. intros _ Heq.
        symmetry in Heq. apply app_same_nil in Heq. discriminate Heq.
      * rewrite app_nil_r. split; [congruence|discriminate].
    + intros [->| ->]; cbn; apply app_nil_r.
  - intros Haction c res. apply empty_markdown_prints_nothing. exact Haction.
Qed.

(** * Further properties of the script *)

Lemma logged_then (args : Args) (s1 : state) (ev : event) :
  ((trace s1 ++ [EvAddHandler]) ++ [EvSetLevel (logger_level args)]) ++ [ev] =
  logged args s1 ++ [ev].
Proof. unfold logged. rewrite <- !app_assoc. reflexivity. Qed.

Lemma run_story_holds (args : Args) (w : World) :
  run_story args w (outcome args w) (events args w).
Proof.
  unfold outcome, events, run, main.
  destruct (load args && from_stdin args) eqn:Hflags.
  { apply story_conflict. exact Hflags. }
  destruct (str_truthy (action args)) eqn:Hgiven; cbn [negb].
  2:{ apply story_no_action; assumption. }
  unfold configure_logging, try_finally, bind, emit, ext.
  fold (start w).
  destruct (acquire_bot args (start w)) as [[e|bot] s1] eqn:Hbot;
    cbn [fst snd world trace].
  { eapply story_no_bot; eassumption. }
  destruct (setup bot (world s1)) as [[e|[]] w1] eqn:Hsetup;
    cbn [recorded fst snd world trace]; rewrite logged_then.
  { eapply story_setup_raised; eassumption. }
  match goal with
  | |- context [run_action args bot ?s0] =>
      destruct (run_action args bot s0) as [rb s2] eqn:Hbody
  end.
  destruct (teardown bot (world s2)) as [rt w2] eqn:Hteardown.
  destruct rt as [e|u]; cbn [fst snd trace].
  - apply (story_action args w bot s1 s2 w1 w2 rb (inl e)); assumption.
  - apply (story_action args w bot s1 s2 w1 w2 rb (inr u)); assumption.
Qed.

(** Opens [acquire_bot]: one case for each way the three modes can go. *)
Ltac open_acquire H :=
  revert H; unfold acquire_bot, explicit_bot, start;
  let Hload := fresh "Hload" in
  let Hstdin := fresh "Hstdin" in
  let Hver := fresh "Hver" in
  let Hparse := fresh "Hparse" in
  destruct (load _) eqn:Hload;
    [|destruct (from_stdin _) eqn:Hstdin;
      [|destruct (os_version_arg _) as [?ver|] eqn:Hver;
        [destruct (OsVersion_parse _) as [?perr|?v] eqn:Hparse|]]];
  run_script; intros H; inversion H; subst; clear H.

(** ** Where the bot comes from (lines 147-161) *)

Lemma acquire_bot_calls (args : Args) (w : World) r (s1 : state) :
  acquire_bot args (start w) = (r, s1) ->
  Forall (fun ev => is_prelude ev = true) (trace s1) /\
  count is_bot_factory (trace s1) <= 1 /\
  count is_set_level (trace s1) = 0 /\
  forall c rr,
    In (EvCall c rr) (trace s1) ->
    match c with
    | CStdinRead =>
        load args = false /\ from_stdin args = true
    | CFromEnvFile =>
        load args = true
    | CFromGithubComment comment user =>
        load args = false /\ from_stdin args = true /\
        index0 (osc_user args) = inr user /\
        hd_error (trace s1) = Some (EvCall CStdinRead (inr (RStr comment)))
    | CStagingBot v branch user =>
        load args = false /\ from_stdin args = false /\
        (exists ver, os_version_arg args = Some ver /\
                     OsVersion_parse ver = inr v) /\
        index0 (branch_name args) = inr branch /\
        index0 (osc_user args) = inr user
    | _ => False
    end.
Proof.
  intros H. open_acquire H; cbn [app trace].
  all: split; [repeat constructor|].
  all: split; [cbn; lia|].
  all: split; [reflexivity|].
  all: intros c rr Hin; cbn in Hin.
  all: repeat match goal with
              | Hin : _ \/ _ |- _ => destruct Hin as [Hin|Hin]
              | Hin : False |- _ => destruct Hin
              | Hin : EvCall _ _ = EvCall _ _ |- _ =>
                  inversion Hin; subst; clear Hin
              end.
  all: cbn; repeat split; eauto; try congruence.
Qed.

(** ** What the [try] body does, whatever the action *)

Lemma run_action_story (args : Args) (bot : Bot) (s : state) rb (s2 : state) :
  run_action args bot s = (rb, s2) ->
  exists act,
    trace s2 = trace s ++ act /\
    Forall (fun ev => is_action_ev ev = true) act /\
    length (action_calls act) <= 1 /\
    length (printed act) <= 1 /\
    (printed act <> [] -> exists c v, action_calls act = [EvCall c (inr v)]) /\
    (forall c e, In (EvCall c (inl e)) act -> rb = inl e).
Proof.
  split_dispatch; split_coroutine; repeat rewrite app_one_more;
    intros H; inversion H; subst; clear H; cbn [trace].
  all: try (eexists; split; [reflexivity|];
            split; [repeat constructor|];
            split; [cbn; lia|];
            split; [cbn; lia|];
            split; [cbn; intros Hp; try congruence; eauto|];
            intros c e Hin; cbn in Hin;
            repeat match goal with
                   | Hin : _ \/ _ |- _ => destruct Hin as [Hin|Hin]
                   | Hin : False |- _ => destruct Hin
                   | Hin : EvCall _ _ = EvCall _ _ |- _ =>
                       inversion Hin; subst; clear Hin
                   | Hin : EvPrint _ = EvCall _ _ |- _ => discriminate Hin
                   end; reflexivity).
  all: exists []; rewrite app_nil_r; split; [reflexivity|];
    split; [constructor|];
    split; [cbn; lia|];
    split; [cbn; lia|];
    split; [cbn; congruence|intros c e []].
Qed.

(** ** Putting the phases together *)

Lemma acquire_bot_outcome (args : Args) (w : World) r (s1 : state) :
  acquire_bot args (start w) = (r, s1) ->
  (forall bot,
      r = inr bot ->
      existsb raised (trace s1) = false /\
      exists c pre,
        trace s1 = pre ++ [EvCall c (inr (RBot bot))] /\
        is_bot_factory (EvCall c (inr (RBot bot))) = true) /\
  (forall e,
      r = inl e ->
      existsb is_bot_built (trace s1) = false /\
      (script_error args e \/
       (e = IndexError /\ parsed_shape args = false) \/
       exists c, In (EvCall c (inl e)) (trace s1))).
Proof.
  intros H. open_acquire H; cbn [app trace].
  all: split; [intros bot Hr; inversion Hr; subst; clear Hr
              |intros e Hr; inversion Hr; subst; clear Hr].
  all: try (split; [reflexivity|]).
  all: try (eexists; (exists []); split; reflexivity).
  all: try (eexists; eexists [_]; split; reflexivity).
  all: try (right; right; eexists; cbn; now eauto).
  all: try (right; left; split; [reflexivity|];
            unfold parsed_shape;
            repeat match goal with
                   | Hl : _ = [] |- _ => rewrite Hl; clear Hl
                   end;
            cbn; rewrite ?andb_false_r; reflexivity).
  - left. unfold script_error. right. right. right. left. eauto.
  - left. unfold script_error. right. right. left. reflexivity.
Qed.

(** How the trace of a run sits on top of what [acquire_bot] left: nothing
    more, or the two logger events and then calls that are no longer part
    of the configuration. *)
Lemma events_over_acquire (args : Args) (w : World) :
  events args w = [] \/
  exists r s1 rest,
    acquire_bot args (start w) = (r, s1) /\
    events args w = trace s1 ++ rest /\
    (rest = [] \/
     exists bot tail,
       r = inr bot /\
       rest = [EvAddHandler; EvSetLevel (logger_level args)] ++ tail /\
       tail <> [] /\
       Forall (fun ev => is_prelude ev = false) tail).
Proof.
  destruct (run_story_holds args w)
    as [Hflags|Hflags Hgiven|e s1 Hflags Hgiven Hbot
       |bot s1 e w1 Hflags Hgiven Hbot Hsetup
       |bot s1 s2 w1 w2 rb rt Hflags Hgiven Hbot Hsetup Hbody Hteardown];
    auto.
  - right. exists (inl e), s1, []. rewrite app_nil_r. auto.
  - right. exists (inr bot), s1.
    exists ([EvAddHandler; EvSetLevel (logger_level args)]
              ++ [EvCall CSetup (inl e)]).
    split; [exact Hbot|]. split.
    + unfold logged. rewrite <- !app_assoc. reflexivity.
    + right. exists bot, [EvCall CSetup (inl e)].
      repeat split; try discriminate. repeat constructor.
  - destruct (run_action_story _ _ _ _ _ Hbody)
      as (act & Hact & Hquiet & _).
    cbn [trace] in Hact.
    right. exists (inr bot), s1.
    exists ([EvAddHandler; EvSetLevel (logger_level args)]
              ++ ([EvCall CSetup (inr RUnit)] ++ act
                    ++ [EvCall CTeardown (recorded (fun _ => RUnit) rt)])).
    split; [exact Hbot|]. split.
    + rewrite Hact. unfold logged. rewrite <- !app_assoc. reflexivity.
    + right. eexists bot, _. split; [reflexivity|]. split; [reflexivity|].
      split; [discriminate|].
      constructor; [reflexivity|].
      apply Forall_app. split.
      * eapply Forall_impl; [|exact Hquiet].
        intros [[] ?| | |]; cbn; congruence.
      * repeat constructor.
Qed.

Lemma config_call_in_acquire (args : Args) (w : World) c rr :
  is_prelude (EvCall c rr) = true ->
  In (EvCall c rr) (events args w) ->
  exists r s1 rest,
    acquire_bot args (start w) = (r, s1) /\
    In (EvCall c rr) (trace s1) /\
    events args w = trace s1 ++ rest.
Proof.
  intros Hprelude Hin.
  destruct (events_over_acquire args w)
    as [Hnil|(r & s1 & rest & Hbot & Hev & Hrest)].
  { rewrite Hnil in Hin. destruct Hin. }
  exists r, s1, rest. split; [exact Hbot|]. split; [|exact Hev].
  rewrite Hev in Hin. apply in_app_or in Hin. destruct Hin as [Hin|Hin].
  { exact Hin. }
  exfalso.
  destruct Hrest as [->|(bot & tail & _ & -> & _ & Htail)].
  { destruct Hin. }
  cbn in Hin. destruct Hin as [Hin|[Hin|Hin]]; try discriminate.
  rewrite Forall_forall in Htail. specialize (Htail _ Hin). congruence.
Qed.

Lemma count_over_acquire (p : event -> bool) (args : Args) (w : World) :
  (forall ev, p ev = true -> is_prelude ev = true) ->
  p EvAddHandler = false ->
  (forall l, p (EvSetLevel l) = false) ->
  events args w = [] \/
  exists r s1,
    acquire_bot args (start w) = (r, s1) /\
    count p (events args w) = count p (trace s1).
Proof.
  intros Hp Hhandler Hlevel.
  destruct (events_over_acquire args w)
    as [Hnil|(r & s1 & rest & Hbot & Hev & Hrest)]; [auto|].
  right. exists r, s1. split; [exact Hbot|].
  rewrite Hev, count_app.
  destruct Hrest as [->|(bot & tail & _ & -> & _ & Htail)].
  { cbn. lia. }
  rewrite count_app. unfold count at 2. cbn [filter].
  rewrite Hhandler, Hlevel. cbn [length].
  assert (Hnone : count p tail = 0).
  { clear Hev. unfold count. induction Htail as [|ev tail Hev' _ IH]; cbn.
    - reflexivity.
    - destruct (p ev) eqn:Hpev; [|exact IH].
      apply Hp in Hpev. congruence. }
  rewrite Hnone. lia.
Qed.

(** ** Configuration sources (lines 147-161) *)

(** X1.  A run enters at most one factory of the bot, and which one follows
    the flags: [from_env_file] with [--load]; reading standard input and
    [from_github_comment] with [--from-stdin] and no [--load]; the
    constructor with neither. *)
Theorem configuration_source_follows_flags (args : Args) (w : World) :
  count is_bot_factory (events args w) <= 1 /\
  forall c rr,
    In (EvCall c rr) (events args w) ->
    match c with
    | CFromEnvFile => load args = true
    | CStdinRead | CFromGithubComment _ _ =>
        load args = false /\ from_stdin args = true
    | CStagingBot _ _ _ => load args = false /\ from_stdin args = false
    | _ => True
    end.
Proof.
  split.
  - destruct (count_over_acquire is_bot_factory args w)
      as [Hnil|(r & s1 & Hbot & Hcount)].
    + intros [[] ?| | |]; cbn; congruence.
    + reflexivity.
    + reflexivity.
    + rewrite Hnil. cbn. lia.
    + rewrite Hcount.
      exact (proj1 (proj2 (acquire_bot_calls args w r s1 Hbot))).
  - intros c rr Hin.
    destruct (is_prelude (EvCall c rr)) eqn:Hprelude.
    2:{ destruct c; cbn in Hprelude; try discriminate; exact I. }
    destruct (config_call_in_acquire args w c rr Hprelude Hin)
      as (r & s1 & rest & Hbot & Hin1 & _).
    pose proof (proj2 (proj2 (proj2 (acquire_bot_calls args w r s1 Hbot)))
                      c rr Hin1) as Hc.
    destruct c; try exact I; tauto.
Qed.

(** X2.  With [--from-stdin] the comment handed to [from_github_comment] is
    what [sys.stdin.read()] returned, read first of all, and the username is
    [args.osc_user[0]]. *)
Theorem github_comment_is_stdin_text
    (args : Args) (w : World) (comment : string) (user : option string) rr :
  In (EvCall (CFromGithubComment comment user) rr) (events args w) ->
  hd_error (events args w) = Some (EvCall CStdinRead (inr (RStr comment))) /\
  index0 (osc_user args) = inr user.
Proof.
  intros Hin.
  destruct (config_call_in_acquire
              args w (CFromGithubComment comment user) rr eq_refl Hin)
    as (r & s1 & rest & Hbot & Hin1 & Hev).
  pose proof (proj2 (proj2 (proj2 (acquire_bot_calls args w r s1 Hbot)))
                    _ rr Hin1) as (_ & _ & Huser & Hhd).
  split; [|exact Huser].
  rewrite Hev. destruct (trace s1); [discriminate Hhd|exact Hhd].
Qed.

(** X3.  Without [--load] and [--from-stdin] the bot is constructed from the
    OS version that [OsVersion.parse] made of [args.os_version[0]], from
    [args.branch_name[0]] and from [args.osc_user[0]]. *)
Theorem explicit_bot_arguments
    (args : Args) (w : World) (v : OsVersion) (branch : string)
    (user : option string) rr :
  In (EvCall (CStagingBot v branch user) rr) (events args w) ->
  (exists ver, os_version args = Some ver :: tl (os_version args) /\
               ver <> "" /\ OsVersion_parse ver = inr v) /\
  index0 (branch_name args) = inr branch /\
  index0 (osc_user args) = inr user.
Proof.
  intros Hin.
  destruct (config_call_in_acquire
              args w (CStagingBot v branch user) rr eq_refl Hin)
    as (r & s1 & rest & Hbot & Hin1 & Hev).
  pose proof (proj2 (proj2 (proj2 (acquire_bot_calls args w r s1 Hbot)))
                    _ rr Hin1) as (_ & _ & (ver & Hver & Hparse) & Hb & Hu).
  split; [|split; assumption].
  exists ver. unfold os_version_arg in Hver.
  destruct (os_version args) as [|[s0|] rest0]; try discriminate.
  destruct (String.eqb_spec s0 "") as [->|Hne]; [discriminate|].
  inversion Hver; subst. auto.
Qed.

Lemma run_action_same_options (a b : Args) (bot : Bot) :
  same_but_version_and_branch a b ->
  run_action a bot = run_action b bot.
Proof.
  intros (_ & _ & _ & _ & Haction & Hmessage & Hbranch & Hproject & Htimeout).
  unfold run_action, dispatch, _scratch, _wait.
  rewrite Haction, Hmessage, Hbranch, Hproject, Htimeout. reflexivity.
Qed.

(** X4.  With [--load] or [--from-stdin] the values of [--os-version] and
    [--branch-name] play no part: two command lines that differ only there
    give the same run, call for call. *)
Theorem load_and_stdin_ignore_version_and_branch (a b : Args) (w : World) :
  load a = true \/ from_stdin a = true ->
  same_but_version_and_branch a b ->
  run a w = run b w.
Proof.
  intros Hmode Hsame.
  pose proof Hsame as (Huser & Hload & Hstdin & Hverbose & Haction & _).
  assert (Hbot : forall s, acquire_bot a s = acquire_bot b s).
  { intros s. unfold acquire_bot. rewrite <- Hload, <- Hstdin, <- Huser.
    destruct Hmode as [-> | ->]; [reflexivity|].
    destruct (load a); reflexivity. }
  unfold run, main, configure_logging, logger_level.
  rewrite <- Hload, <- Hstdin, <- Haction, <- Hverbose.
  destruct (load a && from_stdin a); [reflexivity|].
  destruct (negb (str_truthy (action a))); [reflexivity|].
  unfold bind. rewrite Hbot.
  destruct (acquire_bot b _) as [[e|bot] s1]; [reflexivity|].
  rewrite (run_action_same_options a b bot Hsame). reflexivity.
Qed.

(** ** Lifecycle and failures (lines 172-234) *)

Lemma Forall_not_In (p : event -> bool) (l : list event) (ev : event) :
  Forall (fun x => p x = true) l -> p ev = false -> ~ In ev l.
Proof.
  intros Hl Hev Hin. rewrite Forall_forall in Hl.
  specialize (Hl _ Hin). congruence.
Qed.

Lemma not_raised_not_In (l : list event) c e :
  existsb raised l = false -> ~ In (EvCall c (inl e)) l.
Proof.
  intros Hl Hin.
  assert (Hex : existsb raised l = true).
  { apply existsb_exists. exists (EvCall c (inl e)). auto. }
  congruence.
Qed.

Lemma acquired_prelude (args : Args) (w : World) r (s1 : state) :
  acquire_bot args (start w) = (r, s1) ->
  Forall (fun ev => is_prelude ev = true) (trace s1).
Proof. intros H. exact (proj1 (acquire_bot_calls _ _ _ _ H)). Qed.

(** Closes a case where an event is found in a phase it cannot be part of. *)
Ltac absurd_in Hin :=
  exfalso;
  match type of Hin with
  | In ?ev _ =>
      first
        [ apply (Forall_not_In is_prelude _ ev) in Hin;
          [exact Hin|eapply acquired_prelude; eassumption|reflexivity]
        | apply (Forall_not_In is_action_ev _ ev) in Hin;
          [exact Hin|eassumption|reflexivity] ]
  end.

(** Takes apart a hypothesis [In ev (l1 ++ ... ++ ln)]. *)
Ltac split_in Hin :=
  unfold logged in Hin; rewrite ?in_app_iff in Hin; cbn [In] in Hin;
  repeat match type of Hin with
         | _ \/ _ => destruct Hin as [Hin|Hin]
         | False => destruct Hin
         end.

(** X5.  When [teardown()] raises, its exception is the one the run ends
    with, whatever the action did before. *)
Theorem teardown_exception_wins (args : Args) (w : World) (e : exn) :
  In (EvCall CTeardown (inl e)) (events args w) ->
  outcome args w = inl e.
Proof.
  intros Hin.
  destruct (run_story_holds args w)
    as [Hflags|Hflags Hgiven|e0 s1 Hflags Hgiven Hbot
       |bot s1 e0 w1 Hflags Hgiven Hbot Hsetup
       |bot s1 s2 w1 w2 rb rt Hflags Hgiven Hbot Hsetup Hbody Hteardown];
    try (destruct Hin; fail).
  - absurd_in Hin.
  - exfalso. split_in Hin; try discriminate.
    absurd_in Hin.
  - destruct (run_action_story _ _ _ _ _ Hbody) as (act & Hact & Hquiet & _).
    cbn [trace] in Hact. rewrite Hact in Hin.
    split_in Hin; try discriminate.
    + absurd_in Hin.
    + absurd_in Hin.
    + destruct rt as [e'|u]; inversion Hin. reflexivity.
Qed.

(** X6.  When an operation of the action raises and [teardown()] then
    returns, the run ends with the exception of the action. *)
Theorem action_exception_surfaces_after_teardown
    (args : Args) (w : World) (c : call) (e : exn) :
  is_action_call (EvCall c (inl e)) = true ->
  In (EvCall c (inl e)) (events args w) ->
  In (EvCall CTeardown (inr RUnit)) (events args w) ->
  outcome args w = inl e.
Proof.
  intros Hc Hin Hdown.
  assert (Hnot : is_prelude (EvCall c (inl e)) = false).
  { destruct c; cbn in Hc |- *; congruence. }
  destruct (run_story_holds args w)
    as [Hflags|Hflags Hgiven|e0 s1 Hflags Hgiven Hbot
       |bot s1 e0 w1 Hflags Hgiven Hbot Hsetup
       |bot s1 s2 w1 w2 rb rt Hflags Hgiven Hbot Hsetup Hbody Hteardown];
    try (destruct Hin; fail).
  - exfalso.
    exact (Forall_not_In _ _ _ (acquired_prelude _ _ _ _ Hbot) Hnot Hin).
  - exfalso. split_in Hin; try discriminate.
    + exact (Forall_not_In _ _ _ (acquired_prelude _ _ _ _ Hbot) Hnot Hin).
    + inversion Hin; subst. discriminate Hc.
  - destruct (run_action_story _ _ _ _ _ Hbody)
      as (act & Hact & Hquiet & _ & _ & _ & Hraised).
    cbn [trace] in Hact. rewrite Hact in Hin, Hdown.
    assert (Hrt : exists u, rt = inr u).
    { split_in Hdown; try discriminate.
      - absurd_in Hdown.
      - absurd_in Hdown.
      - destruct rt as [e'|u]; [discriminate Hdown|eauto]. }
    destruct Hrt as (u & ->).
    split_in Hin; try discriminate; try exact (Hraised _ _ Hin).
    exfalso.
    exact (Forall_not_In _ _ _ (acquired_prelude _ _ _ _ Hbot) Hnot Hin).
Qed.

(** X7.  No exception is swallowed: when any outside call raised, the run
    ends in an exception.  A run that ends normally got through [setup()]
    and ended with a [teardown()] that returned. *)
Theorem no_exception_is_swallowed (args : Args) (w : World) :
  (forall c e, In (EvCall c (inl e)) (events args w) ->
               exists e', outcome args w = inl e') /\
  (outcome args w = inr tt ->
   existsb is_setup_ok (events args w) = true /\
   last (events args w) EvAddHandler = EvCall CTeardown (inr RUnit)).
Proof.
  destruct (run_story_holds args w)
    as [Hflags|Hflags Hgiven|e0 s1 Hflags Hgiven Hbot
       |bot s1 e0 w1 Hflags Hgiven Hbot Hsetup
       |bot s1 s2 w1 w2 rb rt Hflags Hgiven Hbot Hsetup Hbody Hteardown];
    try (split; [eauto|discriminate]).
  destruct (run_action_story _ _ _ _ _ Hbody)
    as (act & Hact & Hquiet & _ & _ & _ & Hraised).
  cbn [trace] in Hact. rewrite Hact. split.
  - intros c e Hin. destruct rt as [e'|u]; [eauto|].
    split_in Hin; try discriminate.
    + exfalso.
      destruct (proj1 (acquire_bot_outcome _ _ _ _ Hbot) bot eq_refl)
        as (Hok & _).
      exact (not_raised_not_In _ _ _ Hok Hin).
    + rewrite (Hraised _ _ Hin). eauto.
  - destruct rt as [e'|[]]; [discriminate|]. intros _. split.
    + rewrite !existsb_app. cbn. rewrite ?orb_true_r. reflexivity.
    + apply last_last.
Qed.

Lemma count_zero_not_In (p : event -> bool) (l : list event) (ev : event) :
  count p l = 0 -> p ev = true -> ~ In ev l.
Proof.
  unfold count. intros Hcount Hev Hin.
  assert (Hf : In ev (filter p l)) by (apply filter_In; auto).
  destruct (filter p l); [destruct Hf|discriminate Hcount].
Qed.

(** X8.  The logger is configured at most once, only once a bot exists, and
    with ERROR when [--verbose] was not given, 20 (INFO) when it was given
    once and 10 (DEBUG) when it was given twice or more. *)
Theorem logger_level_by_verbosity (args : Args) (w : World) :
  ((verbose args <= 0)%Z -> logger_level args = LevelName "ERROR") /\
  (verbose args = 1%Z -> logger_level args = LevelNo 20) /\
  ((2 <= verbose args)%Z -> logger_level args = LevelNo 10) /\
  count is_set_level (events args w) <= 1 /\
  forall l,
    In (EvSetLevel l) (events args w) ->
    l = logger_level args /\ existsb is_bot_built (events args w) = true.
Proof.
  unfold logger_level.
  split; [intros H; destruct (Z.gtb_spec (verbose args) 0); [lia|reflexivity]|].
  split; [intros ->; reflexivity|].
  split.
  { intros H. destruct (Z.gtb_spec (verbose args) 0); [|lia].
    rewrite Z.min_r by lia. reflexivity. }
  fold (logger_level args).
  destruct (events_over_acquire args w)
    as [Hnil|(r & s1 & rest & Hbot & Hev & Hrest)].
  { rewrite Hnil. cbn. split; [lia|intros l []]. }
  pose proof (acquire_bot_calls _ _ _ _ Hbot) as (Hpre & _ & Hnolevel & _).
  rewrite Hev, count_app, Hnolevel.
  destruct Hrest as [->|(bot & tail & -> & -> & _ & Htail)].
  { cbn. split; [lia|]. intros l Hin. rewrite app_nil_r in Hin.
    exfalso.
    exact (count_zero_not_In is_set_level _ (EvSetLevel l) Hnolevel
                             eq_refl Hin). }
  assert (Hquiet : count is_set_level tail = 0).
  { clear Hev. unfold count.
    induction Htail as [|ev tail Hev' _ IH]; cbn; [reflexivity|].
    destruct ev; cbn in Hev' |- *; try exact IH. discriminate. }
  rewrite count_app, Hquiet. split; [cbn; lia|].
  intros l Hin. split_in Hin.
  - exfalso.
    exact (count_zero_not_In is_set_level _ (EvSetLevel l) Hnolevel
                             eq_refl Hin).
  - discriminate.
  - inversion Hin. split; [reflexivity|].
    destruct (proj1 (acquire_bot_outcome _ _ _ _ Hbot) bot eq_refl)
      as (_ & c & pre & Htrace & Hfactory).
    rewrite Htrace, !existsb_app. cbn [existsb].
    replace (is_bot_built (EvCall c (inr (RBot bot)))) with true
      by (destruct c; cbn in Hfactory |- *; congruence).
    rewrite orb_true_r. reflexivity.
  - exfalso. rewrite Forall_forall in Htail.
    specialize (Htail _ Hin). discriminate Htail.
Qed.

(** X9.  [setup()] is entered only right after the logger was configured,
    and that only right after a factory returned the bot. *)
Theorem setup_follows_bot_and_logger (args : Args) (w : World) r :
  In (EvCall CSetup r) (events args w) ->
  exists pre c bot rest,
    events args w =
      pre ++ [EvCall c (inr (RBot bot)); EvAddHandler;
              EvSetLevel (logger_level args); EvCall CSetup r] ++ rest /\
    is_bot_factory (EvCall c (inr (RBot bot))) = true /\
    Forall (fun ev => is_prelude ev = true) pre /\
    count is_setup rest = 0.
Proof.
  intros Hin.
  destruct (run_story_holds args w)
    as [Hflags|Hflags Hgiven|e0 s1 Hflags Hgiven Hbot
       |bot s1 e0 w1 Hflags Hgiven Hbot Hsetup
       |bot s1 s2 w1 w2 rb rt Hflags Hgiven Hbot Hsetup Hbody Hteardown];
    try (destruct Hin; fail).
  - absurd_in Hin.
  - destruct (proj1 (acquire_bot_outcome _ _ _ _ Hbot) bot eq_refl)
      as (_ & c & pre & Htrace & Hfactory).
    pose proof (acquired_prelude _ _ _ _ Hbot) as Hpre.
    rewrite Htrace in Hpre. apply Forall_app in Hpre. destruct Hpre as (Hpre & _).
    assert (Hr : r = inl e0).
    { split_in Hin; try discriminate; [absurd_in Hin|].
      inversion Hin. reflexivity. }
    subst r. exists pre, c, bot, [].
    unfold logged. rewrite Htrace, <- !app_assoc. cbn. auto.
  - destruct (proj1 (acquire_bot_outcome _ _ _ _ Hbot) bot eq_refl)
      as (_ & c & pre & Htrace & Hfactory).
    pose proof (acquired_prelude _ _ _ _ Hbot) as Hpre.
    destruct (run_action_story _ _ _ _ _ Hbody) as (act & Hact & Hquiet & _).
    cbn [trace] in Hact.
    assert (Hr : r = inr RUnit).
    { rewrite Hact in Hin.
      split_in Hin; try discriminate;
        [absurd_in Hin|inversion Hin; reflexivity|absurd_in Hin]. }
    rewrite Htrace in Hpre. apply Forall_app in Hpre. destruct Hpre as (Hpre & _).
    subst r.
    exists pre, c, bot,
      (act ++ [EvCall CTeardown (recorded (fun _ => RUnit) rt)]).
    rewrite Hact. unfold logged. rewrite Htrace, <- !app_assoc. cbn.
    repeat split; auto.
    rewrite count_app, (count_none _ _ act action_not_setup Hquiet).
    reflexivity.
Qed.

(** X10.  A run performs at most one operation of an action on the bot and
    prints at most one line; a line is printed only when that operation
    returned. *)
Theorem at_most_one_operation_and_one_line (args : Args) (w : World) :
  length (action_calls (events args w)) <= 1 /\
  length (printed (events args w)) <= 1 /\
  (printed (events args w) <> [] ->
   exists c v, action_calls (events args w) = [EvCall c (inr v)]).
Proof.
  destruct (run_cases args w)
    as [(_ & Hcalls & Hprinted & _)
       |(bot & s0 & rb & s1 & act & rt & _ & _ & Hbody & Hs1 & Hcalls
         & Hprinted & _)];
    rewrite Hcalls, Hprinted.
  { cbn. repeat split; try lia. congruence. }
  destruct (run_action_story _ _ _ _ _ Hbody)
    as (act' & Hact & _ & Hone & Hline & Hafter & _).
  rewrite Hs1 in Hact. apply app_inv_head in Hact. subst act'.
  auto.
Qed.

(** ** The remaining actions (lines 178-185) *)

Lemma run_action_rebuild (args : Args) (bot : Bot) (s : state) :
  action args = Some "rebuild" ->
  run_action args bot s =
  run_and_print (ext CForceRebuild RVal (force_rebuild bot)) s.
Proof.
  intros H. unfold run_action, dispatch. rewrite H. reflexivity.
Qed.

Lemma run_action_create_project (args : Args) (bot : Bot) (s : state) :
  action args = Some "create_project" ->
  run_action args bot s =
  run_and_print (ext CWritePkgConfigs RVal (write_pkg_configs bot)) s.
Proof.
  intros H. unfold run_action, dispatch. rewrite H. reflexivity.
Qed.

Lemma run_action_commit_state (args : Args) (bot : Bot) (s : state) msg :
  action args = Some "commit_state" ->
  index0 (commit_message args) = inr msg ->
  run_action args bot s =
  run_and_print (ext (CWriteAllBuildRecipes msg) RVal
                     (write_all_build_recipes_to_branch bot msg)) s.
Proof.
  intros H Hmsg. unfold run_action, dispatch. rewrite H. cbn.
  rewrite Hmsg. reflexivity.
Qed.

(** X11.  A run of [rebuild] or [create_project] that gets past [setup()]
    performs one operation on the bot, [force_rebuild()] respectively
    [write_pkg_configs()], and prints what it returned when that is true,
    nothing when it is [None] or when the operation raised. *)
Theorem rebuild_and_create_project (args : Args) (w : World) :
  action args = Some "rebuild" \/ action args = Some "create_project" ->
  existsb is_setup_ok (events args w) = true ->
  exists rr : exn + value,
    action_calls (events args w) =
      [EvCall (if py_eq (action args) "rebuild"
               then CForceRebuild else CWritePkgConfigs)
              (recorded RVal rr)] /\
    printed (events args w) =
      match rr with
      | inr v => if truthy v then [py_str v] else []
      | inl _ => []
      end.
Proof.
  intros Haction Hsetup.
  destruct (run_cases args w)
    as [(Hno & _)
       |(bot & s0 & rb & s1 & act & rt & _ & _ & Hbody & Hs1 & Hcalls
         & Hprinted & _)];
    [congruence|].
  rewrite Hcalls, Hprinted.
  destruct Haction as [Haction|Haction]; rewrite Haction; cbn [py_eq];
    [rewrite (run_action_rebuild _ _ _ Haction) in Hbody
    |rewrite (run_action_create_project _ _ _ Haction) in Hbody];
    cbn [String.eqb Ascii.eqb Bool.eqb];
    open_body Hbody Hs1;
    first [exists (inl r); cbn; split; reflexivity
          |exists (inr r); cbn; rewrite Htruthy; split; reflexivity].
Qed.

(** X12.  A run of [commit_state] that gets past [setup()] performs one
    operation on the bot, [write_all_build_recipes_to_branch] with
    [args.commit_message[0]], and prints what it returned when that is
    true. *)
Theorem commit_state_forwards_message
    (args : Args) (w : World) (msg : string) :
  action args = Some "commit_state" ->
  index0 (commit_message args) = inr msg ->
  existsb is_setup_ok (events args w) = true ->
  exists rr : exn + value,
    action_calls (events args w) =
      [EvCall (CWriteAllBuildRecipes msg) (recorded RVal rr)] /\
    printed (events args w) =
      match rr with
      | inr v => if truthy v then [py_str v] else []
      | inl _ => []
      end.
Proof.
  intros Haction Hmsg Hsetup.
  destruct (run_cases args w)
    as [(Hno & _)
       |(bot & s0 & rb & s1 & act & rt & _ & _ & Hbody & Hs1 & Hcalls
         & Hprinted & _)];
    [congruence|].
  rewrite Hcalls, Hprinted.
  rewrite (run_action_commit_state _ _ _ _ Haction Hmsg) in Hbody.
  open_body Hbody Hs1;
    first [exists (inl r); cbn; split; reflexivity
          |exists (inr r); cbn; rewrite Htruthy; split; reflexivity].
Qed.

Lemma unknown_action_no_match (a : string) :
  existsb (String.eqb a) subcommands = false ->
  forall lit, In lit subcommands -> py_eq (Some a) lit = false.
Proof.
  intros Hnone lit Hin. cbn [py_eq].
  destruct (String.eqb_spec a lit) as [->|Hne]; [|reflexivity].
  assert (Hex : existsb (String.eqb lit) subcommands = true).
  { apply existsb_exists. exists lit. split; [exact Hin|apply String.eqb_refl]. }
  congruence.
Qed.

Lemma run_action_unknown (args : Args) (bot : Bot) (s : state) (a : string) :
  action args = Some a ->
  existsb (String.eqb a) subcommands = false ->
  run_action args bot s =
  (inl (AssertionError ("invalid action: " ++ a)%string), s).
Proof.
  intros Haction Hnone.
  pose proof (unknown_action_no_match a Hnone) as Hno.
  unfold run_action, dispatch. rewrite Haction.
  rewrite !Hno by (cbn; tauto).
  reflexivity.
Qed.

(** X13.  A subcommand that is none of the eight gets as far as [setup()]:
    the run then performs no operation on the bot, prints nothing, calls
    [teardown()] and ends in the [AssertionError] of line 227 when
    [teardown()] returns. *)
Theorem unknown_action_fails_after_setup
    (args : Args) (w : World) (a : string) :
  action args = Some a ->
  existsb (String.eqb a) subcommands = false ->
  existsb is_setup_ok (events args w) = true ->
  action_calls (events args w) = [] /\
  printed (events args w) = [] /\
  (exists rt, last (events args w) EvAddHandler = EvCall CTeardown rt) /\
  (last (events args w) EvAddHandler = EvCall CTeardown (inr RUnit) ->
   outcome args w = inl (AssertionError ("invalid action: " ++ a)%string)).
Proof.
  intros Haction Hnone Hsetup.
  destruct (run_cases args w)
    as [(Hno & _)
       |(bot & s0 & rb & s1 & act & rt & _ & _ & Hbody & Hs1 & Hcalls
         & Hprinted & Hlast & Hout)];
    [congruence|].
  rewrite Hcalls, Hprinted, Hlast, Hout.
  rewrite (run_action_unknown _ _ _ _ Haction Hnone) in Hbody.
  inversion Hbody; subst. apply app_same_nil in Hs1. subst act.
  repeat split; eauto.
  intros Hrt. inversion Hrt. reflexivity.
Qed.

(** ** Namespaces that come from the parser *)

Lemma one_inv {A} (l : list A) : one l = true -> exists x, l = [x].
Proof.
  destruct l as [|x [|y l]]; try discriminate. eauto.
Qed.

Lemma parsed_shape_inv (args : Args) :
  parsed_shape args = true ->
  (exists v, os_version args = [v]) /\
  (exists u, osc_user args = [u]) /\
  (exists b, branch_name args = [b]) /\
  (exists m, commit_message args = [m]) /\
  (exists t, timeout_sec args = [t]) /\
  (0 <= verbose args)%Z /\
  (action args = None \/
   exists a, action args = Some a /\
             existsb (String.eqb a) subcommands = true).
Proof.
  unfold parsed_shape. rewrite !andb_true_iff.
  intros ((((((Hv & Hu) & Hb) & Hm) & Ht) & Hverbose) & Haction).
  repeat split; try (apply one_inv; assumption).
  - apply Z.leb_le. exact Hverbose.
  - destruct (action args) as [a|]; [right; eauto|left; reflexivity].
Qed.

(** On such a namespace the [try] body performs exactly one operation on
    the bot, and fails only with what that operation raised or with
    "Build failed!". *)
Lemma run_action_parsed (args : Args) (bot : Bot) (s : state) rb (s2 : state) :
  parsed_shape args = true ->
  str_truthy (action args) = true ->
  run_action args bot s = (rb, s2) ->
  exists act c rr,
    trace s2 = trace s ++ act /\
    action_calls act = [EvCall c rr] /\
    forall e, rb = inl e -> e = RuntimeError "Build failed!" \/ rr = inl e.
Proof.
  intros Hshape Hgiven.
  destruct (parsed_shape_inv args Hshape)
    as (_ & _ & _ & (m & Hm) & (t & Ht) & _ & Haction).
  destruct Haction as [Hnone|(a & Ha & Hknown)].
  { rewrite Hnone in Hgiven. discriminate. }
  unfold run_action, dispatch, _scratch, _wait. rewrite Hm, Ht, Ha.
  cbn [py_eq index0].
  repeat match goal with
         | |- context [if (a =? ?lit)%string then _ else _] =>
             let H := fresh "Hact" in
             destruct (a =? lit)%string eqn:H
         end.
  9:{ exfalso. cbn in Hknown.
      rewrite Hact, Hact0, Hact1, Hact2, Hact3, Hact4, Hact5, Hact6 in Hknown.
      discriminate. }
  all: split_coroutine; repeat rewrite app_one_more;
    intros H; inversion H; subst; clear H; cbn [trace].
  all: eexists; eexists; eexists; split; [reflexivity|];
    split; [reflexivity|];
    intros e He; inversion He; subst; auto.
Qed.

(** X14.  On a namespace of the shape the parser produces, a run that gets
    past [setup()] performs exactly one operation on the bot. *)
Theorem parsed_run_performs_one_operation (args : Args) (w : World) :
  parsed_shape args = true ->
  existsb is_setup_ok (events args w) = true ->
  exists c rr, action_calls (events args w) = [EvCall c rr].
Proof.
  intros Hshape Hsetup.
  destruct (run_cases args w)
    as [(Hno & _)
       |(bot & s0 & rb & s1 & act & rt & Hgiven & _ & Hbody & Hs1 & Hcalls
         & _)];
    [congruence|].
  rewrite Hcalls.
  destruct (run_action_parsed _ _ _ _ _ Hshape Hgiven Hbody)
    as (act' & c & rr & Hact & Hone & _).
  rewrite Hs1 in Hact. apply app_inv_head in Hact. subst act'.
  eauto.
Qed.

(** X15.  On such a namespace every failure of a run is accounted for: it
    is one of the errors the script raises itself (conflicting flags, no
    action, no OS version, "Build failed!"), what [OsVersion.parse] raised,
    or the exception of an outside call recorded in the trace.  Neither
    [IndexError] nor the [AssertionError] of the dispatch can come from the
    script. *)
Theorem failures_are_accounted_for (args : Args) (w : World) (e : exn) :
  parsed_shape args = true ->
  outcome args w = inl e ->
  script_error args e \/ exists c, In (EvCall c (inl e)) (events args w).
Proof.
  intros Hshape.
  destruct (run_story_holds args w)
    as [Hflags|Hflags Hgiven|e0 s1 Hflags Hgiven Hbot
       |bot s1 e0 w1 Hflags Hgiven Hbot Hsetup
       |bot s1 s2 w1 w2 rb rt Hflags Hgiven Hbot Hsetup Hbody Hteardown];
    intros He; inversion He; subst; clear He; unfold script_error.
  - auto.
  - auto.
  - destruct (proj2 (acquire_bot_outcome _ _ _ _ Hbot) e eq_refl)
      as (_ & [Hscript|[(_ & Hbad)|Hcall]]); [auto|congruence|auto].
  - right. exists CSetup. apply in_or_app. right. left. reflexivity.
  - destruct rt as [e'|u].
    + inversion H0; subst. right. exists CTeardown.
      apply in_or_app. right. left. reflexivity.
    + destruct (run_action_parsed _ _ _ _ _ Hshape Hgiven Hbody)
        as (act & c & rr & Hact & Hone & Hfail).
      destruct (Hfail e H0) as [->| ->]; [tauto|].
      right. exists c. rewrite Hact.
      apply in_or_app. left. apply in_or_app. right.
      assert (Hin : In (EvCall c (inl e)) (action_calls act)).
      { rewrite Hone. left. reflexivity. }
      apply filter_In in Hin. tauto.
Qed.

(** ** From the command line to the run (lines 36-161) *)

Section ParsedCommandLine.

Variable getenv : string -> option string.
Variables OS_VERSION_ENVVAR_NAME OSC_USER_ENVVAR_NAME BRANCH_NAME_ENVVAR_NAME
  : string.
Variable ALL_OS_VERSIONS : list string.


(** X17.  When no OS version can be found, neither on the command line nor
    in the environment (unset, or set to the empty string), a run in the
    explicit mode with a subcommand ends in "No OS version has been set"
    before anything is called. *)
Theorem no_os_version_anywhere (g : Given) (args : Args) (w : World) :
  parse_args getenv OS_VERSION_ENVVAR_NAME OSC_USER_ENVVAR_NAME
             BRANCH_NAME_ENVVAR_NAME ALL_OS_VERSIONS g = inr args ->
  given_load g = false ->
  given_from_stdin g = false ->
  given_subcommand g <> None ->
  given_os_version g = None ->
  getenv OS_VERSION_ENVVAR_NAME = None \/
  getenv OS_VERSION_ENVVAR_NAME = Some "" ->
  run args w = (inl (ValueError "No OS version has been set"), start w).
Proof.
  unfold parse_args.
  destruct (check_choices ALL_OS_VERSIONS g) as [err|[]]; [discriminate|].
  intros H Hload Hstdin Hsub Hnone Henv. inversion H; subst; clear H.
  destruct (given_subcommand g) as [sub|]; [|congruence].
  unfold run, main, acquire_bot, explicit_bot, os_version_arg; cbn.
  rewrite Hload, Hstdin, Hnone. cbn.
  destruct Henv as [-> | ->]; destruct sub; reflexivity.
Qed.

(** X18.  An OS version that comes from the environment is not compared
    with the choices of [--os-version]: in the explicit mode it goes to
    [OsVersion.parse] as it is, and when that raises, the run ends with its
    exception before anything is called. *)
Theorem environment_version_skips_choices
    (g : Given) (v : string) (w : World) :
  given_os_version g = None ->
  getenv OS_VERSION_ENVVAR_NAME = Some v ->
  v <> "" ->
  given_load g = false ->
  given_from_stdin g = false ->
  given_subcommand g <> None ->
  exists args,
    parse_args getenv OS_VERSION_ENVVAR_NAME OSC_USER_ENVVAR_NAME
               BRANCH_NAME_ENVVAR_NAME ALL_OS_VERSIONS g = inr args /\
    os_version args = [Some v] /\
    forall e, OsVersion_parse v = inl e -> run args w = (inl e, start w).
Proof.
  intros Hnone Henv Hv Hload Hstdin Hsub.
  unfold parse_args, check_choices. rewrite Hnone.
  eexists. split; [reflexivity|]. cbn. rewrite Henv.
  split; [reflexivity|].
  intros e Hparse.
  destruct (given_subcommand g) as [sub|]; [|congruence].
  unfold run, main, acquire_bot, explicit_bot, os_version_arg; cbn.
  rewrite Hload, Hstdin, ?Henv. cbn.
  assert (Hne : (v =? "")%string = false)
    by (destruct (String.eqb_spec v ""); [contradiction|reflexivity]).
  destruct sub; cbn; rewrite Hne; unfold bind, lift; rewrite Hparse;
    reflexivity.
Qed.

End ParsedCommandLine.

End Facts.

(** * Concrete runs *)

Module Runs.
Import Scripted.

(** [scratch-build-bot.py rebuild] where [force_rebuild()] raises: the
    handler still runs, and the exception of the action is what the process
    dies of. *)
Example rebuild_raises_teardown_runs :
  let sc := {| parse_ok := true; build_ok := true; setup_ok := true;
               action_ok := false; teardown_ok := true;
               stdin_text := ""; action_value := VNone;
               build_failed := false; build_markdown := "" |} in
  @run (env sc) (cli (Some "rebuild")) 0 =
  (inl (boom "force_rebuild"),
   after sc 4 [built sc;
               EvAddHandler;
               EvSetLevel (LevelName "ERROR");
               EvCall CSetup (inr RUnit);
               EvCall CForceRebuild (inl (boom "force_rebuild"));
               EvCall CTeardown (inr RUnit)]).
Proof. reflexivity. Qed.

(** When [setup()] raises, the run ends there. *)
Example setup_raises_no_teardown :
  let sc := {| parse_ok := true; build_ok := true; setup_ok := false;
               action_ok := true; teardown_ok := true;
               stdin_text := ""; action_value := VNone;
               build_failed := false; build_markdown := "" |} in
  @run (env sc) (cli (Some "rebuild")) 0 =
  (inl (boom "setup"),
   after sc 2 [built sc;
               EvAddHandler;
               EvSetLevel (LevelName "ERROR");
               EvCall CSetup (inl (boom "setup"))]).
Proof. reflexivity. Qed.

(** [--verbose] once is INFO, twice or more is DEBUG. *)
Example verbosity_levels :
  map (fun n => logger_level
                  {| os_version := []; osc_user := []; branch_name := [];
                     load := false; from_stdin := false; verbose := n;
                     action := None; commit_message := [];
                     no_cleanup_branch := false; no_cleanup_project := false;
                     timeout_sec := [] |})
      [0; 1; 2; 5]%Z =
  [LevelName "ERROR"; LevelNo 20; LevelNo 10; LevelNo 10].
Proof. reflexivity. Qed.

(** An OS version taken from the environment that the parser rejects. *)
Example unknown_os_version_stops_the_run :
  let sc := {| parse_ok := false; build_ok := true; setup_ok := true;
               action_ok := true; teardown_ok := true;
               stdin_text := ""; action_value := VNone;
               build_failed := false; build_markdown := "" |} in
  @run (env sc) (with_os_version [Some "15.99"] (cli (Some "rebuild"))) 0 =
  (inl (ValueError "unknown OS version"), after sc 0 []).
Proof. reflexivity. Qed.

(** The three combinations of the cleanup flags named in the specification. *)
Example cleanup_flag_combinations :
  map (fun '(ncb, ncp) =>
         action_calls
           (@events (env fine)
                    (with_cleanup ncb ncp (cli (Some "cleanup"))) 0))
      [(false, false); (true, false); (false, true)] =
  [[EvCall (CRemoteCleanup true true) (inr (RVal VNone))];
   [EvCall (CRemoteCleanup false true) (inr (RVal VNone))];
   [EvCall (CRemoteCleanup true false) (inr (RVal VNone))]].
Proof. reflexivity. Qed.

Lemma conflicting_sources_fail_at_once_witness :
  let a := with_flags true true (cli (Some "rebuild")) in
  load a = true /\
  from_stdin a = true /\
  @events (env fine) a 0 = [] /\
  exit_status (@outcome (env fine) a 0) = 1%Z.
Proof.
  intros a.
  split; [reflexivity|]. split; [reflexivity|].
  destruct (@conflicting_sources_fail_at_once (env fine) a 0 eq_refl eq_refl)
    as (Hrun & _ & _ & _ & Hexit).
  split; [|exact Hexit].
  unfold events. rewrite Hrun. reflexivity.
Defined.

(** With [--load --from-stdin] and no subcommand the error is the one about
    the flags, not "No action specified". *)
Lemma no_action_error_is_not_always_no_action :
  let a := with_flags true true (cli None) in
  action a = None /\
  @outcome (env fine) a 0 <> inl (RuntimeError "No action specified").
Proof.
  intros a. split; [reflexivity|].
  vm_compute. intros H. discriminate H.
Qed.

Lemma no_action_fails_before_any_handle_witness :
  let a := cli None in
  action a = None /\
  @run (env fine) a 0 =
    (inl (RuntimeError "No action specified"), after fine 0 []).
Proof.
  intros a. split; [reflexivity|].
  exact (proj1 (@no_action_fails_before_any_handle (env fine) a 0 eq_refl)).
Defined.

Lemma explicit_mode_validates_os_version_witness :
  let a := with_os_version [None] (cli (Some "rebuild")) in
  load a = false /\
  from_stdin a = false /\
  @run (env fine) a 0 =
    (inl (ValueError "No OS version has been set"), after fine 0 []).
Proof.
  intros a. split; [reflexivity|]. split; [reflexivity|].
  destruct (@explicit_mode_validates_os_version (env fine) a 0
              eq_refl eq_refl) as (Hmissing & _).
  destruct (Hmissing eq_refl) as (e & Hrun & He).
  rewrite (He eq_refl) in Hrun. exact Hrun.
Defined.

Lemma get_build_quality_verdict_witness :
  let a := cli (Some "get_build_quality") in
  let E := env (with_build true "| repo | failed |" fine) in
  action a = Some "get_build_quality" /\
  existsb is_setup_ok (@events E a 0) = true /\
  exists rr : exn + (bool * string),
    action_calls (@events E a 0) =
      [EvCall (CWaitForBuild Omitted) (@recorded E _ RBuild rr)] /\
    match rr with
    | inl e =>
        printed (@events E a 0) = [] /\ exists e', @outcome E a 0 = inl e'
    | inr res =>
        if fst res then
          (exists e, @outcome E a 0 = inl e) /\
          exit_status (@outcome E a 0) = 1%Z /\
          (last (@events E a 0) EvAddHandler = EvCall CTeardown (inr RUnit) ->
           @outcome E a 0 = inl (RuntimeError "Build failed!")) /\
          printed (@events E a 0) = [] /\
          ~ In "Build succeded" (printed (@events E a 0))
        else
          printed (@events E a 0) = ["Build succeded"] /\
          (last (@events E a 0) EvAddHandler = EvCall CTeardown (inr RUnit) ->
           @outcome E a 0 = inr tt)
    end.
Proof.
  intros a E. split; [reflexivity|]. split; [reflexivity|].
  exact (@get_build_quality_verdict E a 0 eq_refl eq_refl).
Defined.

Lemma query_and_wait_print_markdown_witness :
  let a := with_timeout (Some 300%Z) (cli (Some "wait")) in
  (action a = Some "query_build_result" \/ action a = Some "wait") /\
  @outcome (env fine) a 0 = inr tt /\
  exists c res,
    action_calls (@events (env fine) a 0) = [EvCall c (inr (RBuild res))] /\
    printed (@events (env fine) a 0) =
      (if (snd res =? "")%string then [] else [snd res]) /\
    String.concat "" (printed (@events (env fine) a 0)) = snd res.
Proof.
  intros a.
  assert (Hwait : action a = Some "query_build_result" \/
                  action a = Some "wait") by (right; reflexivity).
  split; [exact Hwait|]. split; [reflexivity|].
  exact (proj2 (@query_and_wait_print_markdown (env fine) a 0 Hwait) eq_refl).
Defined.

Lemma scratch_build_prints_commit_or_no_changes_witness :
  let a := cli (Some "scratch_build") in
  let E := env (with_value (VStr "abc123") fine) in
  action a = Some "scratch_build" /\
  action_calls (@events E a 0) =
    [EvCall (CScratchBuild "") (inr (RVal (VStr "abc123")))] /\
  printed (@events E a 0) = ["abc123"].
Proof.
  intros a E. split; [reflexivity|]. split; [reflexivity|].
  destruct (@scratch_build_prints_commit_or_no_changes E a 0 ""
              (VStr "abc123") eq_refl eq_refl) as (_ & _ & _ & Hid).
  exact (Hid eq_refl).
Defined.

Lemma scratch_build_empty_commit_is_no_changes_witness :
  let a := cli (Some "scratch_build") in
  let E := env (with_value (VStr "") fine) in
  action a = Some "scratch_build" /\
  action_calls (@events E a 0) =
    [EvCall (CScratchBuild "") (inr (RVal (VStr "")))] /\
  printed (@events E a 0) = ["No changes"].
Proof.
  intros a E. split; [reflexivity|]. split; [reflexivity|].
  destruct (@scratch_build_empty_commit_is_no_changes E a 0 ""
              (VStr "") eq_refl eq_refl) as (Hempty & _).
  exact (Hempty eq_refl).
Defined.

Lemma cleanup_flags_are_independent_witness :
  let a := with_cleanup true false (cli (Some "cleanup")) in
  action a = Some "cleanup" /\
  existsb is_setup_ok (@events (env fine) a 0) = true /\
  exists rr,
    action_calls (@events (env fine) a 0) =
      [EvCall (CRemoteCleanup false true) rr].
Proof.
  intros a. split; [reflexivity|]. split; [reflexivity|].
  exact (proj1 (@cleanup_flags_are_independent (env fine) a 0
                  eq_refl eq_refl)).
Defined.

Lemma output_iff_value_truthy_witness :
  let a := cli (Some "query_build_result") in
  let E := env (with_build false "" fine) in
  let s := after (with_build false "" fine) 0 [] in
  @dispatch E a tt = inr (Some (@print_build_res E tt)) /\
  printed (trace (snd (@run_action E a tt s))) = [].
Proof.
  intros a E s. split; [reflexivity|].
  exact (proj1 (@output_iff_value_truthy E a tt (@print_build_res E tt) s 0
                  eq_refl)).
Defined.

End Runs.

Module MoreRuns.
Import Scripted.

Lemma github_comment_is_stdin_text_witness :
  let a := with_flags false true (cli (Some "rebuild")) in
  let E := env fine in
  In (EvCall (@CFromGithubComment E "@bot please stage" None)
             (inr (@RBot E tt)))
     (@events E a 0) /\
  hd_error (@events E a 0) =
    Some (EvCall (@CStdinRead E) (inr (@RStr E "@bot please stage"))) /\
  index0 (osc_user a) = inr None.
Proof.
  intros a E.
  assert (Hin : In (EvCall (@CFromGithubComment E "@bot please stage" None)
                           (inr (@RBot E tt)))
                   (@events E a 0)) by (right; left; reflexivity).
  split; [exact Hin|].
  exact (@github_comment_is_stdin_text E a 0 _ _ _ Hin).
Defined.

Lemma explicit_bot_arguments_witness :
  let a := cli (Some "rebuild") in
  let E := env fine in
  In (built fine) (@events E a 0) /\
  (exists ver, os_version a = Some ver :: tl (os_version a) /\
               ver <> "" /\ @OsVersion_parse E ver = inr "Tumbleweed") /\
  index0 (branch_name a) = inr "" /\
  index0 (osc_user a) = inr None.
Proof.
  intros a E.
  assert (Hin : In (built fine) (@events E a 0)) by (left; reflexivity).
  split; [exact Hin|].
  exact (@explicit_bot_arguments E a 0 "Tumbleweed" "" None _ Hin).
Defined.

Lemma load_and_stdin_ignore_version_and_branch_witness :
  let a := with_flags true false (cli (Some "rebuild")) in
  let b := with_os_version [None] a in
  (load a = true \/ from_stdin a = true) /\
  same_but_version_and_branch a b /\
  @run (env fine) a 0 = @run (env fine) b 0.
Proof.
  intros a b.
  assert (Hmode : load a = true \/ from_stdin a = true)
    by (left; reflexivity).
  assert (Hsame : same_but_version_and_branch a b)
    by (repeat split; reflexivity).
  split; [exact Hmode|]. split; [exact Hsame|].
  exact (@load_and_stdin_ignore_version_and_branch (env fine) a b 0
           Hmode Hsame).
Defined.

Lemma teardown_exception_wins_witness :
  let a := cli (Some "rebuild") in
  let E := env failing_teardown in
  In (EvCall (@CTeardown E) (inl (boom "teardown"))) (@events E a 0) /\
  @outcome E a 0 = inl (boom "teardown").
Proof.
  intros a E.
  assert (Hin : In (EvCall (@CTeardown E) (inl (boom "teardown")))
                   (@events E a 0))
    by (do 5 right; left; reflexivity).
  split; [exact Hin|].
  exact (@teardown_exception_wins E a 0 _ Hin).
Defined.

Lemma action_exception_surfaces_after_teardown_witness :
  let a := cli (Some "rebuild") in
  let E := env failing_action in
  let ev := EvCall (@CForceRebuild E) (inl (boom "force_rebuild")) in
  is_action_call ev = true /\
  In ev (@events E a 0) /\
  In (EvCall (@CTeardown E) (inr (@RUnit E))) (@events E a 0) /\
  @outcome E a 0 = inl (boom "force_rebuild").
Proof.
  intros a E ev.
  assert (Hin : In ev (@events E a 0)) by (do 4 right; left; reflexivity).
  assert (Hdown : In (EvCall (@CTeardown E) (inr (@RUnit E)))
                     (@events E a 0))
    by (do 5 right; left; reflexivity).
  split; [reflexivity|]. split; [exact Hin|]. split; [exact Hdown|].
  exact (@action_exception_surfaces_after_teardown E a 0
           (@CForceRebuild E) (boom "force_rebuild") eq_refl Hin Hdown).
Defined.

Lemma setup_follows_bot_and_logger_witness :
  let a := cli (Some "rebuild") in
  let E := env fine in
  In (EvCall (@CSetup E) (inr (@RUnit E))) (@events E a 0) /\
  exists pre c bot rest,
    @events E a 0 =
      pre ++ [EvCall c (inr (@RBot E bot)); EvAddHandler;
              EvSetLevel (logger_level a);
              EvCall (@CSetup E) (inr (@RUnit E))] ++ rest /\
    is_bot_factory (EvCall c (inr (@RBot E bot))) = true /\
    Forall (fun ev => is_prelude ev = true) pre /\
    count is_setup rest = 0.
Proof.
  intros a E.
  assert (Hin : In (EvCall (@CSetup E) (inr (@RUnit E))) (@events E a 0))
    by (do 3 right; left; reflexivity).
  split; [exact Hin|].
  exact (@setup_follows_bot_and_logger E a 0 _ Hin).
Defined.

Lemma rebuild_and_create_project_witness :
  let a := cli (Some "create_project") in
  let E := env (with_value (VStr "configs written") fine) in
  (action a = Some "rebuild" \/ action a = Some "create_project") /\
  existsb is_setup_ok (@events E a 0) = true /\
  exists rr : exn + value,
    action_calls (@events E a 0) =
      [EvCall (@CWritePkgConfigs E) (@recorded E _ RVal rr)] /\
    printed (@events E a 0) =
      match rr with
      | inr v => if truthy v then [py_str v] else []
      | inl _ => []
      end.
Proof.
  intros a E.
  assert (Haction : action a = Some "rebuild" \/
                    action a = Some "create_project")
    by (right; reflexivity).
  split; [exact Haction|]. split; [reflexivity|].
  exact (@rebuild_and_create_project E a 0 Haction eq_refl).
Defined.

Lemma commit_state_forwards_message_witness :
  let a := cli (Some "commit_state") in
  let E := env fine in
  action a = Some "commit_state" /\
  index0 (commit_message a) = inr "" /\
  existsb is_setup_ok (@events E a 0) = true /\
  exists rr : exn + value,
    action_calls (@events E a 0) =
      [EvCall (@CWriteAllBuildRecipes E "") (@recorded E _ RVal rr)] /\
    printed (@events E a 0) =
      match rr with
      | inr v => if truthy v then [py_str v] else []
      | inl _ => []
      end.
Proof.
  intros a E.
  split; [reflexivity|]. split; [reflexivity|]. split; [reflexivity|].
  exact (@commit_state_forwards_message E a 0 "" eq_refl eq_refl eq_refl).
Defined.

Lemma unknown_action_fails_after_setup_witness :
  let a := cli (Some "frobnicate") in
  let E := env fine in
  action a = Some "frobnicate" /\
  existsb (String.eqb "frobnicate") subcommands = false /\
  existsb is_setup_ok (@events E a 0) = true /\
  action_calls (@events E a 0) = [] /\
  @outcome E a 0 = inl (AssertionError "invalid action: frobnicate").
Proof.
  intros a E.
  split; [reflexivity|]. split; [reflexivity|]. split; [reflexivity|].
  destruct (@unknown_action_fails_after_setup E a 0 "frobnicate"
              eq_refl eq_refl eq_refl) as (Hcalls & _ & _ & Hout).
  split; [exact Hcalls|exact (Hout eq_refl)].
Defined.

Lemma parsed_run_performs_one_operation_witness :
  let a := cli (Some "wait") in
  let E := env fine in
  parsed_shape a = true /\
  existsb is_setup_ok (@events E a 0) = true /\
  exists c rr, action_calls (@events E a 0) = [EvCall c rr].
Proof.
  intros a E.
  split; [reflexivity|]. split; [reflexivity|].
  exact (@parsed_run_performs_one_operation E a 0 eq_refl eq_refl).
Defined.

Lemma failures_are_accounted_for_witness :
  let a := cli (Some "rebuild") in
  let E := env failing_action in
  parsed_shape a = true /\
  @outcome E a 0 = inl (boom "force_rebuild") /\
  (@script_error E a (boom "force_rebuild") \/
   exists c, In (EvCall c (inl (boom "force_rebuild"))) (@events E a 0)).
Proof.
  intros a E.
  split; [reflexivity|]. split; [reflexivity|].
  exact (@failures_are_accounted_for E a 0 _ eq_refl eq_refl).
Defined.


Lemma no_os_version_anywhere_witness :
  let g := typed (Some Rebuild) in
  exists args,
    parse_with no_environ g = inr args /\
    given_load g = false /\
    given_from_stdin g = false /\
    given_subcommand g <> None /\
    given_os_version g = None /\
    (no_environ "OS_VERSION" = None \/ no_environ "OS_VERSION" = Some "") /\
    @run (env fine) args 0 =
      (inl (ValueError "No OS version has been set"), @start (env fine) 0).
Proof.
  intros g.
  assert (Hsub : given_subcommand g <> None) by discriminate.
  assert (Henv : no_environ "OS_VERSION" = None \/
                 no_environ "OS_VERSION" = Some "") by (left; reflexivity).
  eexists. split; [reflexivity|].
  split; [reflexivity|]. split; [reflexivity|]. split; [exact Hsub|].
  split; [reflexivity|]. split; [exact Henv|].
  exact (@no_os_version_anywhere (env fine)
           no_environ "OS_VERSION" "OSC_USER" "BRANCH_NAME"
           ["Tumbleweed"; "15.6"] g _ 0
           eq_refl eq_refl eq_refl Hsub eq_refl Henv).
Defined.

Lemma environment_version_skips_choices_witness :
  let g := typed (Some Rebuild) in
  let getenv := environ "OS_VERSION" "15.99" in
  given_os_version g = None /\
  getenv "OS_VERSION" = Some "15.99" /\
  "15.99" <> "" /\
  given_load g = false /\
  given_from_stdin g = false /\
  given_subcommand g <> None /\
  exists args,
    parse_with getenv g = inr args /\
    os_version args = [Some "15.99"] /\
    @run (env rejecting) args 0 =
      (inl (ValueError "unknown OS version"), @start (env rejecting) 0).
Proof.
  intros g getenv.
  assert (Hv : "15.99" <> "") by discriminate.
  assert (Hsub : given_subcommand g <> None) by discriminate.
  split; [reflexivity|]. split; [reflexivity|]. split; [exact Hv|].
  split; [reflexivity|]. split; [reflexivity|]. split; [exact Hsub|].
  destruct (@environment_version_skips_choices (env rejecting)
              getenv "OS_VERSION" "OSC_USER" "BRANCH_NAME"
              ["Tumbleweed"; "15.6"] g "15.99" 0
              eq_refl eq_refl Hv eq_refl eq_refl Hsub)
    as (args & Hparse & Hversion & Hrun).
  exists args. split; [exact Hparse|]. split; [exact Hversion|].
  exact (Hrun _ eq_refl).
Defined.

End MoreRuns.
